(** * Visual MCP server: image normalisation, validation and the retrying
      vision-API client (src/visual_mcp/server.py)

    Python values are embedded as follows.
    - [str] is [string]; every [ascii] stands for the code point of the same
      number, so the strings of this development are the Python strings
      whose characters lie below U+0100.
    - [bytes] is [list byte].
    - [int] is [Z]; a finite [float] is the rational it denotes ([Q]), and
      the product of the back-off is taken exactly, as it is in floats as
      long as it is finite; the [OverflowError] of converting an [int]
      beyond the range of [float] is modelled, a product that rounds to an
      infinite float is not ([finite_delays] excludes it where it matters).
    - An exception is an [exn], one of the subclasses of [Exception] the
      program meets; cancellation is not modelled.
    - A function that can raise returns a [result]; code that talks to the
      outside world (HTTP posts, sleeps, progress notifications) runs in the
      monad [M], which threads the trace of the events performed so far. *)

From Stdlib Require Import ZArith NArith QArith Qabs String Ascii List Sorted Lia.
From Stdlib.Strings Require Import Byte.
From stdpp Require Import gmap strings list pretty.

Local Open Scope Z_scope.

(** ** Exceptions and results *)

Inductive exn :=
| ValueError (msg : string)
| IndexError (msg : string)
| RuntimeError (msg : string)
| OverflowError (msg : string).

(** [str(e)] *)
Definition str_exn (e : exn) : string :=
  match e with
  | ValueError m | IndexError m | RuntimeError m | OverflowError m => m
  end.

Definition is_ValueError (e : exn) : bool :=
  match e with ValueError _ => true | _ => false end.

Definition is_IndexError (e : exn) : bool :=
  match e with IndexError _ => true | _ => false end.

Definition is_RuntimeError (e : exn) : bool :=
  match e with RuntimeError _ => true | _ => false end.

Definition is_OverflowError (e : exn) : bool :=
  match e with OverflowError _ => true | _ => false end.

Inductive result (A : Type) :=
| Ok (a : A)
| Raise (e : exn).
Arguments Ok {A} a.
Arguments Raise {A} e.

Definition result_bind {A B} (r : result A) (k : A -> result B) : result B :=
  match r with
  | Ok a => k a
  | Raise e => Raise e
  end.

(** [try: body  except (classes): handler] *)
Definition try_except {A} (body : result A) (catches : exn -> bool)
  (handler : exn -> result A) : result A :=
  match body with
  | Ok a => Ok a
  | Raise e => if catches e then handler e else Raise e
  end.

(** ** Python string and list primitives used by the server *)

Module py.

(** [s.partition(sep)] restricted to the case where [sep] occurs. *)
Fixpoint partition (sep : ascii) (s : string) : option (string * string) :=
  match s with
  | EmptyString => None
  | String c s' =>
      if Ascii.eqb c sep then Some (EmptyString, s')
      else match partition sep s' with
           | Some (a, b) => Some (String c a, b)
           | None => None
           end
  end.

(** [s.split(sep, 1)] *)
Definition split1 (sep : ascii) (s : string) : list string :=
  match partition sep s with
  | Some (a, b) => [a; b]
  | None => [s]
  end.

(** [l[i]] *)
Definition getitem (l : list string) (i : nat) : result string :=
  match l !! i with
  | Some x => Ok x
  | None => Raise (IndexError "list index out of range")
  end.

(** [a, b = l] *)
Definition unpack2 (l : list string) : result (string * string) :=
  match l with
  | [a; b] => Ok (a, b)
  | [] => Raise (ValueError "not enough values to unpack (expected 2, got 0)")
  | [_] => Raise (ValueError "not enough values to unpack (expected 2, got 1)")
  | _ => Raise (ValueError "too many values to unpack (expected 2)")
  end.

(** [s.startswith(p)] *)
Definition startswith (s p : string) : bool := String.prefix p s.

(** [c.lower()] on the code points below U+0100: the upper-case letters are
    A-Z, and in the Latin-1 block U+00C0-U+00DE without the sign U+00D7. *)
Definition lower_char (c : ascii) : ascii :=
  let n := N_of_ascii c in
  if ((65 <=? n) && (n <=? 90))%N then ascii_of_N (n + 32)
  else if ((192 <=? n) && (n <=? 222) && negb (n =? 215))%N
       then ascii_of_N (n + 32)
  else c.

(** [s.lower()] *)
Fixpoint lower (s : string) : string :=
  match s with
  | EmptyString => EmptyString
  | String c s' => String (lower_char c) (lower s')
  end.

(** [c * n] for a one-character string [c] *)
Fixpoint repeat_char (c : ascii) (n : nat) : string :=
  match n with
  | O => EmptyString
  | S n' => String c (repeat_char c n')
  end.

(** truthiness of an optional string: [None] and [""] are false *)
Definition truthy (o : option string) : bool :=
  match o with
  | None => false
  | Some s => negb (String.eqb s "")
  end.

End py.

(** ** The standard library's base64 codec *)

Module binascii.

Definition table_b2a_base64 : string :=
  "ABCDEFGHIJKLMNOPQRSTUVWXYZabcdefghijklmnopqrstuvwxyz0123456789+/".

Definition BASE64_PAD : ascii := "="%char.

(** the character of a 6-bit group *)
Definition b2a (n : N) : ascii :=
  match String.get (N.to_nat n) table_b2a_base64 with
  | Some c => c
  | None => BASE64_PAD
  end.

(** the 6-bit group of a character, [None] outside the alphabet *)
Definition table_a2b_base64 (c : ascii) : option N :=
  let n := N_of_ascii c in
  if ((65 <=? n) && (n <=? 90))%N then Some (n - 65)%N
  else if ((97 <=? n) && (n <=? 122))%N then Some (n - 97 + 26)%N
  else if ((48 <=? n) && (n <=? 57))%N then Some (n - 48 + 52)%N
  else if (n =? 43)%N then Some 62%N
  else if (n =? 47)%N then Some 63%N
  else None.

(** storing into an [unsigned char] keeps the low eight bits *)
Definition to_byte (n : N) : byte := byte_of_ascii (ascii_of_N n).

(** [b2a_base64(data, newline=False)]: three bytes give four characters; one
    or two left-over bytes give two or three characters and padding. *)
Fixpoint b2a_base64 (data : list byte) : string :=
  match data with
  | [] => EmptyString
  | [x] =>
      let a := Byte.to_N x in
      String (b2a (N.shiftr a 2))
        (String (b2a (N.shiftl (N.land a 3) 4))
           (String BASE64_PAD (String BASE64_PAD EmptyString)))
  | [x; y] =>
      let a := Byte.to_N x in
      let b := Byte.to_N y in
      String (b2a (N.shiftr a 2))
        (String (b2a (N.lor (N.shiftl (N.land a 3) 4) (N.shiftr b 4)))
           (String (b2a (N.shiftl (N.land b 15) 2))
              (String BASE64_PAD EmptyString)))
  | x :: y :: z :: rest =>
      let a := Byte.to_N x in
      let b := Byte.to_N y in
      let c := Byte.to_N z in
      String (b2a (N.shiftr a 2))
        (String (b2a (N.lor (N.shiftl (N.land a 3) 4) (N.shiftr b 4)))
           (String (b2a (N.lor (N.shiftl (N.land b 15) 2) (N.shiftr c 6)))
              (String (b2a (N.land c 63)) (b2a_base64 rest))))
  end.

(** The decoding loop of [a2b_base64(data, strict_mode)], as CPython 3.11
    has it ([validate=True] is its strict mode). [quad_pos] is the
    position inside the current group of four characters, [leftchar] the
    bits not yet written, [pads] the padding characters seen in a row once
    two data characters of the group were read. [None] is [binascii.Error]. *)
Fixpoint a2b_loop (strict_mode : bool) (quad_pos : nat) (leftchar : N)
  (pads : nat) (padding_started : bool) (s : string) : option (list byte) :=
  match s with
  | EmptyString =>
      match quad_pos with
      | O => Some []
      | _ => None
      end
  | String this_ch rest =>
      if Ascii.eqb this_ch BASE64_PAD then
        if (2 <=? quad_pos)%nat then
          if (4 <=? quad_pos + S pads)%nat then
            if strict_mode && negb (String.eqb rest EmptyString) then None
            else Some []
          else a2b_loop strict_mode quad_pos leftchar (S pads) true rest
        else a2b_loop strict_mode quad_pos leftchar pads true rest
      else
        match table_a2b_base64 this_ch with
        | None =>
            if strict_mode then None
            else a2b_loop strict_mode quad_pos leftchar pads padding_started rest
        | Some v =>
            if strict_mode && padding_started then None
            else
              match quad_pos with
              | 0%nat => a2b_loop strict_mode 1 v 0 padding_started rest
              | 1%nat =>
                  cons (to_byte (N.lor (N.shiftl leftchar 2) (N.shiftr v 4)))
                    <$> a2b_loop strict_mode 2 (N.land v 15) 0 padding_started rest
              | 2%nat =>
                  cons (to_byte (N.lor (N.shiftl leftchar 4) (N.shiftr v 2)))
                    <$> a2b_loop strict_mode 3 (N.land v 3) 0 padding_started rest
              | _ =>
                  cons (to_byte (N.lor (N.shiftl leftchar 6) v))
                    <$> a2b_loop strict_mode 0 0 0 padding_started rest
              end
        end
  end.

(** [a2b_base64(data, strict_mode)]: strict mode refuses leading padding. *)
Definition a2b_base64 (strict_mode : bool) (s : string) : option (list byte) :=
  match s with
  | String c _ =>
      if strict_mode && Ascii.eqb c BASE64_PAD then None
      else a2b_loop strict_mode 0 0 0 false s
  | EmptyString => a2b_loop strict_mode 0 0 0 false s
  end.

End binascii.

Module base64.

(** [base64.b64encode(data).decode("utf-8")] *)
Definition b64encode (data : list byte) : string := binascii.b2a_base64 data.

(** a [str] argument must be pure ASCII *)
Fixpoint is_ascii (s : string) : bool :=
  match s with
  | EmptyString => true
  | String c s' => (N_of_ascii c <? 128)%N && is_ascii s'
  end.

(** [base64.b64decode(s, validate=validate)] for a [str] argument; [None]
    when it raises ([ValueError] for a non-ASCII string, [binascii.Error]
    otherwise). *)
Definition b64decode (s : string) (validate : bool) : option (list byte) :=
  if is_ascii s then binascii.a2b_base64 validate s else None.

End base64.

(** ** The world outside the server *)

(** What a path of the file system holds. *)
Inductive fs_entry :=
| File (content : list byte)   (* a readable file *)
| PermissionDenied             (* exists, but must not be read *)
| Faulty (err : string).       (* exists, reading fails with [OSError(err)] *)

Inductive io_error :=
| FileNotFoundError
| PermissionError
| OtherError (str : string).

(** [os.path.exists(path)] *)
Definition os_path_exists (fs : gmap string fs_entry) (path : string) : bool :=
  bool_decide (is_Some (fs !! path)).

(** [open(path, "rb").read()] *)
Definition read_file (fs : gmap string fs_entry) (path : string)
  : io_error + list byte :=
  match fs !! path with
  | None => inl FileNotFoundError
  | Some PermissionDenied => inl PermissionError
  | Some (Faulty err) => inl (OtherError err)
  | Some (File content) => inr content
  end.

(** A decoded JSON value, as far as the client looks into it: an object
    with its fields, or any other value. [rendering] is the text [str()]
    gives for the value. *)
#[local] Unset Elimination Schemes.
Inductive json :=
| JObj (rendering : string) (fields : list (string * json))
| JVal (rendering : string).
#[local] Set Elimination Schemes.

Definition py_str (j : json) : string :=
  match j with
  | JObj r _ | JVal r => r
  end.

(** [d.get(key)] on the fields of an object *)
Fixpoint dict_get (key : string) (fields : list (string * json)) : option json :=
  match fields with
  | [] => None
  | (k, v) :: rest => if String.eqb k key then Some v else dict_get key rest
  end.

(** An HTTP response with an error status: [json = None] when
    [response.json()] raises. *)
Record response := {
  status_code : Z;
  text : string;
  body_json : option json
}.

Record request := {
  url : string;
  authorization : string;
  content_type : string;
  model : string;
  prompt_text : string;
  image_url : string;
  max_tokens_field : Z;
  temperature : Q;
  timeout : Q
}.

(** What one [client.post(...)] followed by [raise_for_status()] and the
    extraction of [choices[0].message.content] comes to. *)
Inductive http_outcome :=
| Answer (content : string)
| HTTPStatusError (resp : response)
| TimeoutException (str : string)
| NetworkError (str : string)
| OtherException (str : string) (format_exc : string).

Record World := {
  fs : gmap string fs_entry;
  (** [mimetypes.guess_type(path)[0]] *)
  guess_type : string -> option string;
  (** the outcome of the [n]-th post (counted from 0) of a request *)
  transport : nat -> request -> http_outcome
}.

(** The module-level configuration variables of server.py. *)
Record Config := {
  GLM_API_BASE : string;
  GLM_API_KEY : option string;
  GLM_MODEL_NAME : string
}.

(** A running process: its environment variables and the loaded module. *)
Record Process := {
  environ : gmap string string;
  server : Config
}.

(** [os.getenv(name)] and [os.getenv(name, default)] *)
Definition getenv (env : gmap string string) (name : string) : option string :=
  env !! name.

Definition getenv_default (env : gmap string string) (name default : string)
  : string :=
  match env !! name with
  | Some v => v
  | None => default
  end.

(** Executing the assignments of the module body. *)
Definition load_config (env : gmap string string) : Config :=
  {| GLM_API_BASE := getenv_default env "GLM_API_BASE" "https://nano-gpt.com/api/v1";
     GLM_API_KEY := getenv env "GLM_API_KEY";
     GLM_MODEL_NAME := getenv_default env "GLM_MODEL_NAME" "zai-org/GLM-4.5V-FP8" |}.

(** [import visual_mcp.server] in a fresh process *)
Definition import_server (env : gmap string string) : Process :=
  {| environ := env; server := load_config env |}.

(** [os.environ[name] = value] and [del os.environ[name]] *)
Definition setenv (name value : string) (p : Process) : Process :=
  {| environ := <[name := value]> (environ p); server := server p |}.

Definition unsetenv (name : string) (p : Process) : Process :=
  {| environ := delete name (environ p); server := server p |}.

(** ** Effects *)

Inductive event :=
| Post (r : request)
| Sleep (seconds : Q)
| Info (msg : string)
| Error (msg : string).

Definition is_post (e : event) : bool :=
  match e with Post _ => true | _ => false end.

Definition trace := list event.

(** the number of posts performed so far *)
Definition posts_made (t : trace) : nat := length (List.filter is_post t).

Definition M (A : Type) : Type := trace -> result A * trace.

Definition ret {A} (a : A) : M A := fun t => (Ok a, t).

Definition raise {A} (e : exn) : M A := fun t => (Raise e, t).

Definition bind {A B} (m : M A) (k : A -> M B) : M B :=
  fun t =>
    match m t with
    | (Ok a, t') => k a t'
    | (Raise e, t') => (Raise e, t')
    end.

(** [try: body  except Exception as e: handler(e)] *)
Definition try_catch {A} (body : M A) (handler : exn -> M A) : M A :=
  fun t =>
    match body t with
    | (Ok a, t') => (Ok a, t')
    | (Raise e, t') => handler e t'
    end.

Definition lift {A} (r : result A) : M A := fun t => (r, t).

Definition emit (e : event) : M unit := fun t => (Ok tt, t ++ [e]).

Definition when (b : bool) (m : M unit) : M unit := if b then m else ret tt.

Declare Scope M_scope.
Delimit Scope M_scope with M.
Notation "x <- m ;; k" := (bind m (fun x => k))
  (at level 100, m at next level, right associativity) : M_scope.
Notation "m ;; k" := (bind m (fun _ => k))
  (at level 100, right associativity) : M_scope.

(** [await client.post(...)], [raise_for_status()] and the reading of the
    body: the service answers according to the number of posts so far. *)
Definition post (w : World) (r : request) : M http_outcome :=
  fun t => (Ok (transport w (posts_made t) r), t ++ [Post r]).

(** [await asyncio.sleep(seconds)] *)
Definition sleep (seconds : Q) : M unit := emit (Sleep seconds).

(** ** server.py *)

(** [encode_file_to_base64(file_path)] *)
Definition encode_file_to_base64 (w : World) (file_path : string)
  : result (string * string) :=
  let mime_type := guess_type w file_path in
  let mime_type :=
    if negb (py.truthy mime_type)
       || negb (py.startswith (default EmptyString mime_type) "image/")
    then "image/jpeg"
    else default EmptyString mime_type in
  match read_file (fs w) file_path with
  | inr content => Ok (base64.b64encode content, mime_type)
  | inl FileNotFoundError =>
      Raise (ValueError ("File not found: " +:+ file_path))
  | inl PermissionError =>
      Raise (ValueError ("Permission denied when reading file: " +:+ file_path))
  | inl (OtherError e) =>
      Raise (ValueError ("Failed to encode file " +:+ file_path +:+ ": " +:+ e))
  end.

(** The [try] block of the data-URL branch of [prepare_image_for_api]. *)
Definition parse_data_url (image_input : string) : result (string * string) :=
  result_bind (py.unpack2 (py.split1 "," image_input)) (fun '(header, data) =>
  result_bind (py.getitem (py.split1 ";" header) 0) (fun h =>
  result_bind (py.getitem (py.split1 ":" h) 1) (fun mime_type =>
  Ok (data, mime_type)))).

(** [prepare_image_for_api(image_input)] *)
Definition prepare_image_for_api (w : World) (image_input : string)
  : result (string * string) :=
  if os_path_exists (fs w) image_input then
    encode_file_to_base64 w image_input
  else if py.startswith image_input "data:image" then
    try_except (parse_data_url image_input)
      (fun e => is_IndexError e || is_ValueError e)
      (fun _ =>
         result_bind (py.getitem (py.split1 "," image_input) 1) (fun data =>
         Ok (data, "image/jpeg"%string)))
  else Ok (image_input, "image/jpeg"%string).

(** [is_valid_base64(base64_string)] *)
Definition is_valid_base64 (base64_string : string) : bool :=
  let padding_needed := (String.length base64_string mod 4)%nat in
  let base64_string :=
    if negb (padding_needed =? 0)%nat
    then base64_string +:+ py.repeat_char "=" (4 - padding_needed)
    else base64_string in
  match base64.b64decode base64_string true with
  | Some _ => true
  | None => false
  end.

Definition supported_formats : list string :=
  ["image/jpeg"; "image/jpg"; "image/png"]%string.

(** [x in supported_formats] *)
Definition in_supported (x : string) : bool :=
  existsb (String.eqb x) supported_formats.

(** [validate_image_format(mime_type)] *)
Definition validate_image_format (mime_type : string) : string :=
  let mime_type := py.lower mime_type in
  if negb (in_supported mime_type) then "image/jpeg" else mime_type.

(** The headers and the JSON payload of the chat-completions request. *)
Definition build_request (c : Config) (image_base64 prompt mime_type : string)
  (max_tokens : Z) : request :=
  {| url := GLM_API_BASE c +:+ "/chat/completions";
     authorization := "Bearer " +:+ default EmptyString (GLM_API_KEY c);
     content_type := "application/json";
     model := GLM_MODEL_NAME c;
     prompt_text := prompt;
     image_url := "data:" +:+ mime_type +:+ ";base64," +:+ image_base64;
     max_tokens_field := max_tokens;
     temperature := 7 # 10;
     timeout := 120 # 1 |}.

(** [error_detail.get('error', {}).get('message', 'Unknown')], formatted;
    [None] when [response.json()] or one of the [get] calls raises. *)
Definition error_detail_message (resp : response) : option string :=
  match body_json resp with
  | Some (JObj _ fields) =>
      match dict_get "error" fields with
      | None => Some "Unknown"%string
      | Some (JObj _ error_fields) =>
          match dict_get "message" error_fields with
          | None => Some "Unknown"%string
          | Some v => Some (py_str v)
          end
      | Some (JVal _) => None
      end
  | Some (JVal _) => None
  | None => None
  end.

(** The message built in the [except httpx.HTTPStatusError] clause. *)
Definition http_error_msg (resp : response) : string :=
  let error_msg := "GLM API error: " +:+ pretty (status_code resp) in
  match error_detail_message resp with
  | Some detail => error_msg +:+ " - " +:+ detail +:+ " error"
  | None => error_msg +:+ " - " +:+ text resp
  end.

(** [status_code in (401, 403, 429)] *)
Definition no_retry_status (code : Z) : bool :=
  (code =? 401) || (code =? 403) || (code =? 429).

(** What the body of the [for] loop does with the outcome of its post:
    return the answer, or capture an error and say whether to [break]. *)
Inductive attempt_result :=
| Return (content : string)
| Captured (last_error : exn) (break : bool).

Definition handle_outcome (o : http_outcome) : attempt_result :=
  match o with
  | Answer content => Return content
  | HTTPStatusError resp =>
      Captured (RuntimeError (http_error_msg resp))
        (no_retry_status (status_code resp))
  | TimeoutException e =>
      Captured (RuntimeError ("GLM API timeout: " +:+ e)) false
  | NetworkError e =>
      Captured (RuntimeError ("GLM API network error: " +:+ e)) false
  | OtherException e tb =>
      Captured (RuntimeError ("Failed to call GLM API: " +:+ e
                              +:+ "            Traceback: " +:+ tb)) false
  end.

(** The statements after the loop. *)
Definition raise_last_error {A} (last_error : option exn) : M A :=
  match last_error with
  | Some e => raise e
  | None => raise (RuntimeError "Failed to call GLM API after maximum retries")
  end.

(** [range(n)] *)
Definition range (n : Z) : list Z := List.map Z.of_nat (seq 0 (Z.to_nat n)).

(** The value of [retry_delay * (2 ** attempt)] when it has one. *)
Definition backoff_delay (retry_delay : Q) (attempt : Z) : Q :=
  (retry_delay * inject_Z (2 ^ attempt))%Q.

(** Evaluating [retry_delay * (2 ** attempt)]: the integer [2 ** attempt]
    is converted to [float] first, which raises [OverflowError] from
    [2 ** 1024] on. *)
Definition scaled_delay (retry_delay : Q) (attempt : Z) : result Q :=
  if 1024 <=? attempt
  then Raise (OverflowError "int too large to convert to float")
  else Ok (backoff_delay retry_delay attempt).

Local Open Scope M_scope.

(** [for attempt in attempts: ...] followed by the raise after the loop.
    The back-off is computed outside the [try]: its error is not captured. *)
Fixpoint retry_loop (w : World) (req : request) (max_retries : Z)
  (retry_delay : Q) (attempts : list Z) (last_error : option exn) : M string :=
  match attempts with
  | [] => raise_last_error last_error
  | attempt :: rest =>
      outcome <- post w req ;;
      match handle_outcome outcome with
      | Return content => ret content
      | Captured e true => raise_last_error (Some e)
      | Captured e false =>
          when (attempt <? max_retries - 1)
            (delay <- lift (scaled_delay retry_delay attempt) ;; sleep delay) ;;
          retry_loop w req max_retries retry_delay rest (Some e)
      end
  end.

(** [call_glm_vision_api(image_base64, prompt, mime_type, max_tokens,
    max_retries, retry_delay)], reading the module variables of [p]. *)
Definition call_glm_vision_api (w : World) (p : Process)
  (image_base64 prompt mime_type : string) (max_tokens max_retries : Z)
  (retry_delay : Q) : M string :=
  if negb (py.truthy (GLM_API_KEY (server p))) then
    raise (ValueError "GLM_API_KEY environment variable not set")
  else if negb (py.truthy (Some (GLM_API_BASE (server p)))) then
    raise (ValueError "GLM_API_BASE environment variable not set")
  else if negb (is_valid_base64 image_base64) then
    raise (ValueError "Invalid base64 image data")
  else
    let mime_type := validate_image_format mime_type in
    let req := build_request (server p) image_base64 prompt mime_type max_tokens in
    retry_loop w req max_retries retry_delay (range max_retries) None.

Definition enhanced_prompt (user_context : string) : string :=
  "
You are a comprehensive visual analysis assistant. The user has provided
        an image and specific context about what they need.

USER CONTEXT: " +:+ user_context +:+ "

Based on this context, provide the most appropriate analysis which may include:
- Detailed description of visual elements
- Text extraction and transcription (if text is present)
- Diagram/technical analysis (if it's a diagram, chart, or technical drawing)
- Summary of key information
- Identification of issues, patterns, or insights
- Step-by-step explanations when appropriate

Adapt your response style and focus based on what the user is asking for.
Be thorough but concise.
".

(** [analyze_image_with_context(image_data, user_context, max_tokens, ctx)]
    for a caller that passes no sink ([ctx = false]) or a sink that accepts
    every notification ([ctx = true]); the general case, where the sink may
    raise, is [analyze_image_with_context_sink] below. *)
Definition analyze_image_with_context (w : World) (p : Process)
  (image_data user_context : string) (max_tokens : Z) (ctx : bool) : M string :=
  try_catch
    (when ctx (emit (Info "Starting image analysis with context...")) ;;
     prepared <- lift (prepare_image_for_api w image_data) ;;
     let '(image_base64, mime_type) := prepared in
     result <- call_glm_vision_api w p image_base64
                 (enhanced_prompt user_context) mime_type max_tokens 5 (2 # 1) ;;
     when ctx (emit (Info "Image analysis completed successfully")) ;;
     ret result)
    (fun e =>
       let error_msg := "Image analysis failed: " +:+ str_exn e in
       when ctx (emit (Error error_msg)) ;;
       ret error_msg).

(** A progress sink: what [await ctx.info(msg)] and [await ctx.error(msg)]
    do after the events so far, [None] when the call returns and [Some e]
    when it raises [e]. *)
Record Sink := {
  sink_info : string -> trace -> option exn;
  sink_error : string -> trace -> option exn
}.

(** [if ctx: await ctx.info(msg)] *)
Definition ctx_info (ctx : option Sink) (msg : string) : M unit :=
  fun t =>
    match ctx with
    | None => (Ok tt, t)
    | Some sink =>
        match sink_info sink msg t with
        | None => (Ok tt, t ++ [Info msg])
        | Some e => (Raise e, t ++ [Info msg])
        end
    end.

(** [if ctx: await ctx.error(msg)] *)
Definition ctx_error (ctx : option Sink) (msg : string) : M unit :=
  fun t =>
    match ctx with
    | None => (Ok tt, t)
    | Some sink =>
        match sink_error sink msg t with
        | None => (Ok tt, t ++ [Error msg])
        | Some e => (Raise e, t ++ [Error msg])
        end
    end.

(** The [try] block of [analyze_image_with_context]. *)
Definition analysis_body (w : World) (p : Process)
  (image_data user_context : string) (max_tokens : Z) (ctx : option Sink)
  : M string :=
  ctx_info ctx "Starting image analysis with context..." ;;
  prepared <- lift (prepare_image_for_api w image_data) ;;
  let '(image_base64, mime_type) := prepared in
  result <- call_glm_vision_api w p image_base64
              (enhanced_prompt user_context) mime_type max_tokens 5 (2 # 1) ;;
  ctx_info ctx "Image analysis completed successfully" ;;
  ret result.

(** [analyze_image_with_context(image_data, user_context, max_tokens, ctx)]
    with the caller's sink: the notifications are calls that may raise, the
    two [info] calls inside the [try], the [error] call inside the handler. *)
Definition analyze_image_with_context_sink (w : World) (p : Process)
  (image_data user_context : string) (max_tokens : Z) (ctx : option Sink)
  : M string :=
  try_catch
    (analysis_body w p image_data user_context max_tokens ctx)
    (fun e =>
       let error_msg := "Image analysis failed: " +:+ str_exn e in
       ctx_error ctx error_msg ;;
       ret error_msg).

Local Close Scope M_scope.

(** ** Auxiliary definitions for the statements and proofs *)

(** [s.rstrip("=")] *)
Fixpoint rstrip_pad (s : string) : string :=
  match s with
  | EmptyString => EmptyString
  | String c s' =>
      let r := rstrip_pad s' in
      if Ascii.eqb c "=" && String.eqb r EmptyString then EmptyString
      else String c r
  end.

(** The characters a base64 text is made of: the 64 digits and the pad. *)
Definition base64_alphabet : string :=
  "ABCDEFGHIJKLMNOPQRSTUVWXYZabcdefghijklmnopqrstuvwxyz0123456789+/=".

Definition in_base64_alphabet (c : ascii) : bool :=
  existsb (Ascii.eqb c) (list_ascii_of_string base64_alphabet).

(** Every byte, for proofs by enumeration. *)
Definition all_bytes : list byte :=
  (fun n => binascii.to_byte (N.of_nat n)) <$> seq 0 256.

(** A 6-bit group survives the two tables, and its character is a plain
    ASCII character other than the pad. *)
Definition sextet_ok (n : N) : bool :=
  match binascii.table_a2b_base64 (binascii.b2a n) with
  | Some m => (m =? n)%N
  | None => false
  end
  && negb (Ascii.eqb (binascii.b2a n) binascii.BASE64_PAD)
  && (N_of_ascii (binascii.b2a n) <? 128)%N
  && (n <? 64)%N.

(** The facts about the first two characters of a group, for bytes [x y]. *)
Definition head_check (x y : byte) : bool :=
  let a := Byte.to_N x in
  let b := Byte.to_N y in
  let s1 := N.shiftr a 2 in
  let s2 := N.lor (N.shiftl (N.land a 3) 4) (N.shiftr b 4) in
  sextet_ok s1 && sextet_ok s2
  && Byte.eqb (binascii.to_byte (N.lor (N.shiftl s1 2) (N.shiftr s2 4))) x
  && (N.land s2 15 =? N.shiftr b 4)%N.

(** The facts about the last two characters of a group, for bytes [y z]. *)
Definition tail_check (y z : byte) : bool :=
  let b := Byte.to_N y in
  let c := Byte.to_N z in
  let s3 := N.lor (N.shiftl (N.land b 15) 2) (N.shiftr c 6) in
  let s4 := N.land c 63 in
  sextet_ok s3 && sextet_ok s4
  && (N.shiftr s3 2 =? N.land b 15)%N
  && Byte.eqb (binascii.to_byte (N.lor (N.shiftl (N.land s3 3) 6) s4)) z.

(** The facts about a single byte: its two halves, and the characters of a
    final group of one or two bytes. *)
Definition byte_check (y : byte) : bool :=
  let b := Byte.to_N y in
  Byte.eqb (binascii.to_byte (N.lor (N.shiftl (N.shiftr b 4) 4) (N.land b 15))) y
  && sextet_ok (N.shiftl (N.land b 3) 4)
  && sextet_ok (N.shiftl (N.land b 15) 2)
  && (N.shiftr (N.shiftl (N.land b 15) 2) 2 =? N.land b 15)%N
  && Byte.eqb (binascii.to_byte
                 (N.lor (N.shiftl (N.shiftr b 2) 2)
                    (N.shiftr (N.shiftl (N.land b 3) 4) 4))) y.

(** The padding step of [is_valid_base64]. *)
Definition add_padding (base64_string : string) : string :=
  let padding_needed := (String.length base64_string mod 4)%nat in
  if negb (padding_needed =? 0)%nat
  then base64_string +:+ py.repeat_char "=" (4 - padding_needed)
  else base64_string.

(** [c in s] for a character [c] *)
Definition has_char (c : ascii) (s : string) : bool :=
  existsb (Ascii.eqb c) (list_ascii_of_string s).

(** [s.endswith(suffix)] *)
Definition endswith (s suffix : string) : bool :=
  (String.length suffix <=? String.length s)%nat
  && String.eqb
       (substring (String.length s - String.length suffix)
          (String.length suffix) s) suffix.

(** A few entries of [mimetypes.types_map], for the examples. *)
Definition sample_types_map : list (string * string) :=
  [(".jpg", "image/jpeg"); (".jpeg", "image/jpeg"); (".png", "image/png");
   (".gif", "image/gif"); (".txt", "text/plain")]%string.

Definition sample_guess_type (path : string) : option string :=
  snd <$> List.find (fun entry => endswith path (fst entry)) sample_types_map.

Definition sample_response (code : Z) : response :=
  {| status_code := code;
     text := "upstream failure";
     body_json := None |}.

(** A machine with one GIF file, whose vision service answers every post
    with the given status. *)
Definition sample_world (code : Z) : World :=
  {| fs := {[ "photo.gif"%string := File ["G"%byte; "I"%byte; "F"%byte] ]};
     guess_type := sample_guess_type;
     transport := fun _ _ => HTTPStatusError (sample_response code) |}.

(** A process started with an API key in its environment. *)
Definition sample_process : Process :=
  import_server {[ "GLM_API_KEY"%string := "secret"%string ]}.

(** [sub in s] for strings *)
Fixpoint contains (sub s : string) : bool :=
  String.prefix sub s
  || match s with
     | EmptyString => false
     | String _ s' => contains sub s'
     end.

(** The delays slept in a trace, in order. *)
Fixpoint sleeps_of (t : trace) : list Q :=
  match t with
  | [] => []
  | Sleep d :: t' => d :: sleeps_of t'
  | _ :: t' => sleeps_of t'
  end.

(** The trace of a call whose [max_retries] attempts all fail and are
    retried: a post, then a sleep and a post for each further attempt. *)
Definition exhausted_trace (req : request) (retry_delay : Q) (max_retries : Z)
  : trace :=
  Post req
  :: flat_map (fun attempt => [Sleep (backoff_delay retry_delay attempt); Post req])
       (range (max_retries - 1)).

(** The checks of [call_glm_vision_api] on the module variables pass. *)
Definition configured (p : Process) : bool :=
  py.truthy (GLM_API_KEY (server p))
  && py.truthy (Some (GLM_API_BASE (server p))).

(** Changes of the environment made while the process runs. *)
Inductive env_op :=
| SetEnv (name value : string)
| UnsetEnv (name : string).

Definition apply_env_op (p : Process) (op : env_op) : Process :=
  match op with
  | SetEnv name value => setenv name value p
  | UnsetEnv name => unsetenv name p
  end.

Definition apply_env_ops (ops : list env_op) (p : Process) : Process :=
  fold_left apply_env_op ops p.

(** What reading the configuration at every call would mean: a call in a
    process behaves as in a process that has just loaded the module from
    the current environment. *)
Definition reads_environment_per_call : Prop :=
  forall (w : World) (p : Process) (image_base64 prompt mime_type : string)
         (max_tokens max_retries : Z) (retry_delay : Q) (t : trace),
    call_glm_vision_api w p image_base64 prompt mime_type max_tokens
      max_retries retry_delay t
    = call_glm_vision_api w (import_server (environ p)) image_base64 prompt
        mime_type max_tokens max_retries retry_delay t.

Definition analysis_failed (e : exn) : string :=
  "Image analysis failed: " +:+ str_exn e.

(** The notification sent to the sink, when there is one. *)
Definition notify (ctx : bool) (e : event) (t : trace) : trace :=
  if ctx then t ++ [e] else t.

(** ** Auxiliary definitions for the further properties *)

(** The events of [k] attempts of which the first is attempt [i0]: a post
    for each, and between two of them the back-off sleep of the earlier. *)
Definition attempts_from (req : request) (retry_delay : Q) (i0 k : nat) : trace :=
  match k with
  | O => []
  | S k' =>
      Post req
      :: flat_map
           (fun attempt => [Sleep (backoff_delay retry_delay attempt); Post req])
           (List.map Z.of_nat (seq i0 k'))
  end.

Definition attempts_trace (req : request) (retry_delay : Q) (k : nat) : trace :=
  attempts_from req retry_delay 0 k.

(** One of the 64 base64 digits (the pad excluded). *)
Definition is_digit (c : ascii) : bool :=
  match binascii.table_a2b_base64 c with
  | Some _ => true
  | None => false
  end.

Definition all_digits (s : string) : bool :=
  forallb is_digit (list_ascii_of_string s).

Definition is_notification (e : event) : bool :=
  match e with
  | Info _ | Error _ => true
  | Post _ | Sleep _ => false
  end.

(** What the sink received, in order. *)
Definition notifications_of (t : trace) : list event :=
  List.filter is_notification t.

(** A machine without files whose vision service follows a script: the
    outcome of the [i]-th post is [script i]. *)
Definition scripted_world (script : nat -> http_outcome) : World :=
  {| fs := ∅;
     guess_type := sample_guess_type;
     transport := fun i _ => script i |}.

(** Two overloaded answers, then the model's text. *)
Definition flaky_script (i : nat) : http_outcome :=
  if (i <? 2)%nat then HTTPStatusError (sample_response 503)
  else Answer "a cat on a mat".

(** A time-out, then a rate limit. *)
Definition throttled_script (i : nat) : http_outcome :=
  if (i <? 1)%nat then TimeoutException "read timed out"
  else HTTPStatusError (sample_response 429).

(** Nothing but time-outs. *)
Definition timeout_script (i : nat) : http_outcome :=
  TimeoutException "read timed out".

(** A sink that accepts every notification. *)
Definition accepting_sink : Sink :=
  {| sink_info := fun _ _ => None; sink_error := fun _ _ => None |}.

Definition accepts_all (sink : Sink) : Prop :=
  forall msg t, sink_info sink msg t = None /\ sink_error sink msg t = None.

(** The sink's [error] call returns, whatever the message and the moment. *)
Definition error_accepted (ctx : option Sink) : Prop :=
  forall sink, ctx = Some sink ->
    forall msg t, sink_error sink msg t = None.



(** Whether a sink was passed. *)
Definition has_sink (ctx : option Sink) : bool :=
  match ctx with Some _ => true | None => false end.


(** The largest finite [float], [sys.float_info.max]. *)
Definition float_max : Q := inject_Z ((2 ^ 53 - 1) * 2 ^ 971).

(** The first [k] back-off delays are finite floats: the products
    [retry_delay * (2 ** i)] are then exact, and every sleep ends. *)
Definition finite_delays (retry_delay : Q) (k : Z) : Prop :=
  forall i, 0 <= i < k -> (Qabs (backoff_delay retry_delay i) <= float_max)%Q.

(** * Properties *)

(** ** The base64 codec *)

Lemma all_bytes_complete (x : byte) : In x all_bytes.
Proof.
  assert (H : existsb (Byte.eqb x) all_bytes = true)
    by (destruct x; vm_compute; reflexivity).
  apply existsb_exists in H as (y & Hy & Heq).
  apply Byte.byte_dec_bl in Heq. now subst.
Qed.

Lemma forall_bytes (f : byte -> bool) :
  forallb f all_bytes = true -> forall x, f x = true.
Proof.
  intros H x. rewrite forallb_forall in H. exact (H x (all_bytes_complete x)).
Qed.

Lemma forall_bytes2 (f : byte -> byte -> bool) :
  forallb (fun x => forallb (f x) all_bytes) all_bytes = true ->
  forall x y, f x y = true.
Proof.
  intros H x y. apply forall_bytes. revert x. now apply forall_bytes.
Qed.

Lemma head_check_ok x y : head_check x y = true.
Proof. revert x y. apply forall_bytes2. vm_compute. reflexivity. Qed.

Lemma tail_check_ok y z : tail_check y z = true.
Proof. revert y z. apply forall_bytes2. vm_compute. reflexivity. Qed.

Lemma byte_check_ok y : byte_check y = true.
Proof. revert y. apply forall_bytes. vm_compute. reflexivity. Qed.

Lemma sextet_ok_inv n :
  sextet_ok n = true ->
  binascii.table_a2b_base64 (binascii.b2a n) = Some n
  /\ Ascii.eqb (binascii.b2a n) binascii.BASE64_PAD = false
  /\ (N_of_ascii (binascii.b2a n) <? 128)%N = true.
Proof.
  unfold sextet_ok. intros H.
  repeat (apply andb_prop in H as [H ?]).
  destruct (binascii.table_a2b_base64 (binascii.b2a n)) as [m|]; [|discriminate].
  apply N.eqb_eq in H. subst m. repeat split; auto.
  now apply negb_true_iff.
Qed.

(** One step of the decoding loop on the character of a 6-bit group. *)
Lemma a2b_loop_data sm q l p v rest :
  sextet_ok v = true ->
  binascii.a2b_loop sm q l p false (String (binascii.b2a v) rest) =
  match q with
  | 0%nat => binascii.a2b_loop sm 1 v 0 false rest
  | 1%nat =>
      cons (binascii.to_byte (N.lor (N.shiftl l 2) (N.shiftr v 4)))
        <$> binascii.a2b_loop sm 2 (N.land v 15) 0 false rest
  | 2%nat =>
      cons (binascii.to_byte (N.lor (N.shiftl l 4) (N.shiftr v 2)))
        <$> binascii.a2b_loop sm 3 (N.land v 3) 0 false rest
  | _ =>
      cons (binascii.to_byte (N.lor (N.shiftl l 6) v))
        <$> binascii.a2b_loop sm 0 0 0 false rest
  end.
Proof.
  intros (Ht & Hp & _)%sextet_ok_inv.
  cbn [binascii.a2b_loop]. rewrite Hp, Ht, andb_false_r. reflexivity.
Qed.

Lemma list_ind3 {A} (P : list A -> Prop) :
  P [] -> (forall x, P [x]) -> (forall x y, P [x; y]) ->
  (forall x y z rest, P rest -> P (x :: y :: z :: rest)) ->
  forall l, P l.
Proof.
  intros H0 H1 H2 H3.
  fix IH 1.
  intros [|x [|y [|z rest]]];
    [apply H0 | apply H1 | apply H2 | apply H3, IH].
Qed.

Lemma byte_eqb_true (x y : byte) : Byte.eqb x y = true <-> x = y.
Proof.
  split; [apply Byte.byte_dec_bl | intros ->; apply Byte.byte_dec_lb; reflexivity].
Qed.

Ltac check_facts H :=
  cbv beta delta [head_check tail_check byte_check] zeta in H;
  rewrite ?andb_true_iff, ?N.eqb_eq, ?byte_eqb_true in H.

Lemma head_facts x y :
  let a := Byte.to_N x in
  let b := Byte.to_N y in
  let s1 := N.shiftr a 2 in
  let s2 := N.lor (N.shiftl (N.land a 3) 4) (N.shiftr b 4) in
  sextet_ok s1 = true /\ sextet_ok s2 = true
  /\ binascii.to_byte (N.lor (N.shiftl s1 2) (N.shiftr s2 4)) = x
  /\ N.land s2 15 = N.shiftr b 4.
Proof. pose proof (head_check_ok x y) as H. check_facts H. cbv zeta. tauto. Qed.

Lemma tail_facts y z :
  let b := Byte.to_N y in
  let c := Byte.to_N z in
  let s3 := N.lor (N.shiftl (N.land b 15) 2) (N.shiftr c 6) in
  let s4 := N.land c 63 in
  sextet_ok s3 = true /\ sextet_ok s4 = true
  /\ N.shiftr s3 2 = N.land b 15
  /\ binascii.to_byte (N.lor (N.shiftl (N.land s3 3) 6) s4) = z.
Proof. pose proof (tail_check_ok y z) as H. check_facts H. cbv zeta. tauto. Qed.

Lemma byte_facts y :
  let b := Byte.to_N y in
  binascii.to_byte (N.lor (N.shiftl (N.shiftr b 4) 4) (N.land b 15)) = y
  /\ sextet_ok (N.shiftl (N.land b 3) 4) = true
  /\ sextet_ok (N.shiftl (N.land b 15) 2) = true
  /\ N.shiftr (N.shiftl (N.land b 15) 2) 2 = N.land b 15
  /\ binascii.to_byte
       (N.lor (N.shiftl (N.shiftr b 2) 2)
          (N.shiftr (N.shiftl (N.land b 3) 4) 4)) = y.
Proof. pose proof (byte_check_ok y) as H. check_facts H. cbv zeta. tauto. Qed.

(** Decoding what the encoder wrote gives the bytes back, in both modes. *)
Lemma a2b_loop_b2a sm data :
  binascii.a2b_loop sm 0 0 0 false (binascii.b2a_base64 data) = Some data.
Proof.
  induction data as [|x|x y|x y z rest IH] using list_ind3.
  - reflexivity.
  - destruct sm, x; vm_compute; reflexivity.
  - destruct (head_facts x y) as (H1 & H2 & Hx & Hl).
    destruct (byte_facts y) as (Hy & _ & H3 & Hr & _).
    cbn [binascii.b2a_base64].
    rewrite !a2b_loop_data by assumption.
    rewrite Hl, Hr, Hx, Hy.
    destruct sm; reflexivity.
  - destruct (head_facts x y) as (H1 & H2 & Hx & Hl).
    destruct (tail_facts y z) as (H3 & H4 & Hr & Hz).
    destruct (byte_facts y) as (Hy & _).
    cbn [binascii.b2a_base64].
    rewrite !a2b_loop_data by assumption.
    rewrite IH, Hl, Hr, Hx, Hy, Hz. reflexivity.
Qed.

Lemma a2b_base64_no_leading_pad sm s :
  (forall c s', s = String c s' -> Ascii.eqb c binascii.BASE64_PAD = false) ->
  binascii.a2b_base64 sm s = binascii.a2b_loop sm 0 0 0 false s.
Proof.
  intros H. destruct s as [|c s']; [reflexivity|].
  unfold binascii.a2b_base64. rewrite (H c s' eq_refl), andb_false_r.
  reflexivity.
Qed.

Lemma b2a_base64_head data c s' :
  binascii.b2a_base64 data = String c s' ->
  Ascii.eqb c binascii.BASE64_PAD = false.
Proof.
  destruct data as [|x [|y [|z rest]]]; cbn [binascii.b2a_base64];
    intros H; inversion H; subst;
    try (destruct (head_facts x y) as (H1 & _);
         now apply sextet_ok_inv in H1).
  destruct (head_facts x x) as (H1 & _). now apply sextet_ok_inv in H1.
Qed.

Lemma a2b_base64_b2a_base64 sm data :
  binascii.a2b_base64 sm (binascii.b2a_base64 data) = Some data.
Proof.
  rewrite a2b_base64_no_leading_pad; [apply a2b_loop_b2a|].
  intros c s'. apply b2a_base64_head.
Qed.

Lemma is_ascii_b2a_base64 data :
  base64.is_ascii (binascii.b2a_base64 data) = true.
Proof.
  induction data as [|x|x y|x y z rest IH] using list_ind3.
  - reflexivity.
  - destruct x; vm_compute; reflexivity.
  - destruct (head_facts x y) as ((_ & _ & A1)%sextet_ok_inv & (_ & _ & A2)%sextet_ok_inv & _).
    destruct (byte_facts y) as (_ & _ & (_ & _ & A3)%sextet_ok_inv & _).
    cbn [binascii.b2a_base64 base64.is_ascii]. rewrite A1, A2, A3. reflexivity.
  - destruct (head_facts x y) as ((_ & _ & A1)%sextet_ok_inv & (_ & _ & A2)%sextet_ok_inv & _).
    destruct (tail_facts y z) as ((_ & _ & A3)%sextet_ok_inv & (_ & _ & A4)%sextet_ok_inv & _).
    cbn [binascii.b2a_base64 base64.is_ascii]. rewrite A1, A2, A3, A4, IH.
    reflexivity.
Qed.

(** [base64.b64decode(base64.b64encode(data))] is [data], with and without
    validation. *)
Lemma b64decode_b64encode data validate :
  base64.b64decode (base64.b64encode data) validate = Some data.
Proof.
  unfold base64.b64decode, base64.b64encode.
  rewrite is_ascii_b2a_base64. apply a2b_base64_b2a_base64.
Qed.

Lemma mod4_SSSS n : Nat.modulo (S (S (S (S n)))) 4 = Nat.modulo n 4.
Proof.
  change (S (S (S (S n)))) with (4 + n)%nat.
  rewrite Nat.add_comm. exact (Nat.Div0.mod_add n 1 4).
Qed.

Lemma length_b2a_base64 data :
  Nat.modulo (String.length (binascii.b2a_base64 data)) 4 = 0%nat.
Proof.
  induction data as [|x|x y|x y z rest IH] using list_ind3; try reflexivity.
  cbn [binascii.b2a_base64 String.length]. now rewrite mod4_SSSS.
Qed.

Lemma is_valid_base64_b64encode data :
  is_valid_base64 (base64.b64encode data) = true.
Proof.
  unfold is_valid_base64, base64.b64encode.
  rewrite length_b2a_base64. cbn [Nat.eqb negb].
  fold (base64.b64encode data). now rewrite b64decode_b64encode.
Qed.

Lemma is_valid_base64_unfold s :
  is_valid_base64 s = bool_decide (is_Some (base64.b64decode (add_padding s) true)).
Proof.
  unfold is_valid_base64, add_padding.
  destruct (base64.b64decode _ true); symmetry.
  - apply bool_decide_eq_true. eauto.
  - apply bool_decide_eq_false. intros [? ?]. discriminate.
Qed.

Lemma rstrip_pad_data c s :
  Ascii.eqb c "=" = false -> rstrip_pad (String c s) = String c (rstrip_pad s).
Proof. intros H. cbn [rstrip_pad]. now rewrite H. Qed.

Lemma add_padding_quad c1 c2 c3 c4 s :
  add_padding (String c1 (String c2 (String c3 (String c4 s)))) =
  String c1 (String c2 (String c3 (String c4 (add_padding s)))).
Proof.
  unfold add_padding. cbn [String.length]. rewrite mod4_SSSS.
  now destruct (negb _).
Qed.

Lemma sextet_not_pad n : sextet_ok n = true -> Ascii.eqb (binascii.b2a n) "=" = false.
Proof. intros H. now apply sextet_ok_inv in H. Qed.

(** Stripping the padding of an encoding and padding it again as
    [is_valid_base64] does gives the encoding back. *)
Lemma add_padding_rstrip_pad data :
  add_padding (rstrip_pad (binascii.b2a_base64 data)) = binascii.b2a_base64 data.
Proof.
  induction data as [|x|x y|x y z rest IH] using list_ind3.
  - reflexivity.
  - destruct x; vm_compute; reflexivity.
  - destruct (head_facts x y) as (H1%sextet_not_pad & H2%sextet_not_pad & _).
    destruct (byte_facts y) as (_ & _ & H3%sextet_not_pad & _).
    cbn [binascii.b2a_base64].
    rewrite !rstrip_pad_data by assumption. reflexivity.
  - destruct (head_facts x y) as (H1%sextet_not_pad & H2%sextet_not_pad & _).
    destruct (tail_facts y z) as (H3%sextet_not_pad & H4%sextet_not_pad & _).
    cbn [binascii.b2a_base64].
    rewrite !rstrip_pad_data by assumption.
    now rewrite add_padding_quad, IH.
Qed.

Lemma is_valid_base64_unpadded data :
  is_valid_base64 (rstrip_pad (base64.b64encode data)) = true.
Proof.
  rewrite is_valid_base64_unfold. unfold base64.b64encode.
  rewrite add_padding_rstrip_pad.
  fold (base64.b64encode data). rewrite b64decode_b64encode.
  apply bool_decide_eq_true. eauto.
Qed.

Lemma table_a2b_alphabet c v :
  binascii.table_a2b_base64 c = Some v -> in_base64_alphabet c = true.
Proof.
  destruct c as [[] [] [] [] [] [] [] []]; vm_compute; congruence.
Qed.

Lemma pad_in_alphabet c :
  Ascii.eqb c binascii.BASE64_PAD = true -> in_base64_alphabet c = true.
Proof. intros ->%Ascii.eqb_eq. reflexivity. Qed.

(** In strict mode the loop only accepts texts written in the alphabet. *)
Lemma a2b_loop_strict_alphabet s :
  forall q l p ps bs,
    binascii.a2b_loop true q l p ps s = Some bs ->
    forall c, In c (list_ascii_of_string s) -> in_base64_alphabet c = true.
Proof.
  induction s as [|ch rest IH]; intros q l p ps bs H c Hc; [destruct Hc|].
  cbn [binascii.a2b_loop] in H. cbn [list_ascii_of_string] in Hc.
  destruct (Ascii.eqb ch binascii.BASE64_PAD) eqn:Hpad.
  - destruct Hc as [<- | Hc]; [now apply pad_in_alphabet|].
    destruct (2 <=? q)%nat; [destruct (4 <=? q + S p)%nat|]; try (eapply IH; eassumption).
    cbn [andb] in H. destruct (String.eqb rest EmptyString) eqn:Hrest; [|discriminate].
    apply String.eqb_eq in Hrest. subst rest. destruct Hc.
  - destruct (binascii.table_a2b_base64 ch) as [v|] eqn:Hv; [|discriminate].
    destruct Hc as [<- | Hc]; [eapply table_a2b_alphabet; eassumption|].
    cbn [andb] in H. destruct ps; [discriminate|].
    destruct q as [|[|[|q]]]; try (eapply IH; eassumption);
      apply fmap_Some in H as (bs' & H & _); eapply IH; eassumption.
Qed.

Lemma in_append_l c s t :
  In c (list_ascii_of_string s) -> In c (list_ascii_of_string (s +:+ t)).
Proof.
  induction s as [|a s IH]; [intros []|].
  cbn [list_ascii_of_string]. intros [-> | H].
  - now left.
  - right. now apply IH.
Qed.

Lemma is_valid_base64_alphabet s c :
  is_valid_base64 s = true ->
  In c (list_ascii_of_string s) -> in_base64_alphabet c = true.
Proof.
  rewrite is_valid_base64_unfold. intros [bs H]%bool_decide_eq_true Hc.
  assert (Hc' : In c (list_ascii_of_string (add_padding s))).
  { unfold add_padding. destruct (negb _); [now apply in_append_l | assumption]. }
  unfold base64.b64decode in H.
  destruct (base64.is_ascii _); [|discriminate].
  unfold binascii.a2b_base64 in H.
  destruct (add_padding s) as [|a s'] eqn:E; [destruct Hc'|].
  cbn [andb] in H. destruct (Ascii.eqb a binascii.BASE64_PAD); [discriminate|].
  eapply a2b_loop_strict_alphabet; eassumption.
Qed.

(** ** Format validation *)

Lemma in_supported_In x : in_supported x = true <-> In x supported_formats.
Proof.
  unfold in_supported. rewrite existsb_exists. split.
  - intros (y & Hy & ->%String.eqb_eq). exact Hy.
  - intros H. exists x. split; [exact H | apply String.eqb_refl].
Qed.

Lemma lower_supported x : In x supported_formats -> py.lower x = x.
Proof.
  intros [<- | [<- | [<- | []]]]; reflexivity.
Qed.

Lemma validate_image_format_supported m :
  In (validate_image_format m) supported_formats.
Proof.
  unfold validate_image_format.
  destruct (in_supported (py.lower m)) eqn:E; cbn [negb].
  - now apply in_supported_In.
  - now left.
Qed.

Lemma validate_image_format_fixes x :
  In x supported_formats -> validate_image_format x = x.
Proof.
  intros H. unfold validate_image_format.
  rewrite (lower_supported x H).
  apply in_supported_In in H. now rewrite H.
Qed.

(** C8. [validate_image_format] is a total function on strings (it has no
    failing case); it is idempotent; its value always lies in the allow-list
    image/jpeg, image/jpg, image/png; an input whose lower-cased form is not
    in the allow-list is mapped to image/jpeg, and an input whose lower-cased
    form is in the allow-list is mapped to that lower-cased form. *)
Theorem validate_image_format_normalises (m : string) :
  validate_image_format (validate_image_format m) = validate_image_format m
  /\ In (validate_image_format m) supported_formats
  /\ (~ In (py.lower m) supported_formats ->
      validate_image_format m = "image/jpeg"%string)
  /\ (In (py.lower m) supported_formats ->
      validate_image_format m = py.lower m).
Proof.
  split; [|split; [|split]].
  - apply validate_image_format_fixes, validate_image_format_supported.
  - apply validate_image_format_supported.
  - intros H. unfold validate_image_format.
    destruct (in_supported (py.lower m)) eqn:E; [|reflexivity].
    now apply in_supported_In in E.
  - intros H. unfold validate_image_format.
    apply in_supported_In in H. now rewrite H.
Qed.

Lemma validate_image_format_normalises_witness :
  validate_image_format "IMAGE/Png" = "image/png"%string
  /\ validate_image_format "image/webp" = "image/jpeg"%string.
Proof.
  split.
  - apply (proj2 (proj2 (proj2 (validate_image_format_normalises "IMAGE/Png")))).
    right. right. left. reflexivity.
  - apply (proj1 (proj2 (proj2 (validate_image_format_normalises "image/webp")))).
    intros [H | [H | [H | []]]]; discriminate H.
Defined.

(** ** base64 validation *)

(** C9. [is_valid_base64] accepts the base64 encoding of every byte
    sequence, with its padding and with the padding stripped, and rejects
    every string that holds a character outside the base64 alphabet (the 64
    digits and the pad character). *)
Theorem is_valid_base64_sound_complete (data : list byte) (s : string) (c : ascii) :
  is_valid_base64 (base64.b64encode data) = true
  /\ is_valid_base64 (rstrip_pad (base64.b64encode data)) = true
  /\ (In c (list_ascii_of_string s) -> in_base64_alphabet c = false ->
      is_valid_base64 s = false).
Proof.
  split; [apply is_valid_base64_b64encode|].
  split; [apply is_valid_base64_unpadded|].
  intros Hc Ha. destruct (is_valid_base64 s) eqn:E; [|reflexivity].
  rewrite (is_valid_base64_alphabet s c E Hc) in Ha. discriminate.
Qed.

Lemma is_valid_base64_sound_complete_witness :
  is_valid_base64 "QUJDRA==" = true
  /\ is_valid_base64 "QUJDRA" = true
  /\ is_valid_base64 "QU!D" = false.
Proof.
  pose proof (is_valid_base64_sound_complete
                ["A"%byte; "B"%byte; "C"%byte; "D"%byte] "QU!D" "!") as (H1 & H2 & H3).
  split; [exact H1|]. split; [exact H2|].
  apply H3; [right; right; left; reflexivity | reflexivity].
Defined.

(** ** Image normalisation: files *)

Lemma os_path_exists_file w path entry :
  fs w !! path = Some entry -> os_path_exists (fs w) path = true.
Proof. intros H. apply bool_decide_eq_true. eauto. Qed.

Lemma encode_file_to_base64_readable w file_path content :
  fs w !! file_path = Some (File content) ->
  exists mime,
    encode_file_to_base64 w file_path = Ok (base64.b64encode content, mime)
    /\ match guess_type w file_path with
       | Some g => if py.startswith g "image/" then mime = g
                   else mime = "image/jpeg"%string
       | None => mime = "image/jpeg"%string
       end.
Proof.
  intros H. unfold encode_file_to_base64, read_file. rewrite H.
  eexists. split; [reflexivity|].
  destruct (guess_type w file_path) as [g|]; [|reflexivity].
  unfold default, id. cbn [py.truthy].
  destruct (py.startswith g "image/") eqn:E.
  - destruct g; [discriminate E | reflexivity].
  - cbn [negb]. now rewrite orb_true_r.
Qed.

(** C6, as the code has it. For every existing readable file,
    [prepare_image_for_api] returns the base64 text of the file's bytes, which
    decodes to exactly those bytes, together with the type guessed from the
    file name when that guess starts with image/ (whatever image type it is)
    and image/jpeg when nothing or a non-image type is guessed; the type lies
    in the allow-list once [validate_image_format] has been applied, as the
    client does. *)
Theorem prepare_image_for_api_file (w : World) (path : string)
  (content : list byte) (validate : bool) :
  fs w !! path = Some (File content) ->
  exists mime,
    prepare_image_for_api w path = Ok (base64.b64encode content, mime)
    /\ base64.b64decode (base64.b64encode content) validate = Some content
    /\ match guess_type w path with
       | Some g => if py.startswith g "image/" then mime = g
                   else mime = "image/jpeg"%string
       | None => mime = "image/jpeg"%string
       end
    /\ In (validate_image_format mime) supported_formats.
Proof.
  intros H.
  destruct (encode_file_to_base64_readable w path content H) as (mime & He & Hm).
  exists mime. unfold prepare_image_for_api.
  rewrite (os_path_exists_file w path _ H).
  repeat split; auto using b64decode_b64encode, validate_image_format_supported.
Qed.

Lemma prepare_image_for_api_file_witness :
  exists mime,
    prepare_image_for_api (sample_world 500) "photo.gif"
    = Ok ("R0lG"%string, mime)
    /\ base64.b64decode "R0lG" true = Some ["G"%byte; "I"%byte; "F"%byte]
    /\ mime = "image/gif"%string
    /\ In (validate_image_format mime) supported_formats.
Proof.
  apply (prepare_image_for_api_file (sample_world 500) "photo.gif"
           ["G"%byte; "I"%byte; "F"%byte] true).
  reflexivity.
Defined.

(** C6, as stated, fails: the type returned for a readable GIF file is
    image/gif, which is not in the allow-list. *)
Lemma prepare_image_for_api_file_counterexample :
  ~ (forall (w : World) (path : string) (content : list byte),
        fs w !! path = Some (File content) ->
        exists b64 mime,
          prepare_image_for_api w path = Ok (b64, mime)
          /\ base64.b64decode b64 false = Some content
          /\ In mime supported_formats).
Proof.
  intros H.
  destruct (H (sample_world 500) "photo.gif"%string
              ["G"%byte; "I"%byte; "F"%byte] eq_refl)
    as (b64 & mime & Hp & _ & Hin).
  vm_compute in Hp. injection Hp as <- <-.
  destruct Hin as [E | [E | [E | []]]]; discriminate E.
Qed.

(** ** Image normalisation: data URLs *)

Lemma append_nil s : EmptyString +:+ s = s.
Proof. reflexivity. Qed.

Lemma append_cons c a b : String c a +:+ b = String c (a +:+ b).
Proof. reflexivity. Qed.

Lemma append_nil_r s : s +:+ EmptyString = s.
Proof. induction s as [|c s IH]; [reflexivity|]. now rewrite append_cons, IH. Qed.

Lemma partition_colon x :
  py.partition ":" ("data:image/" +:+ x) = Some ("data"%string, "image/" +:+ x).
Proof. reflexivity. Qed.

Lemma partition_app sep a b :
  has_char sep a = false ->
  py.partition sep (a +:+ b) =
  match py.partition sep b with
  | Some (x, y) => Some (a +:+ x, y)
  | None => None
  end.
Proof.
  unfold has_char.
  induction a as [|c a IH]; cbn [list_ascii_of_string existsb].
  - intros _. rewrite append_nil.
    destruct (py.partition sep b) as [[x y]|]; reflexivity.
  - intros [Hc Ha]%orb_false_elim.
    rewrite append_cons. cbn [py.partition].
    rewrite Ascii.eqb_sym, Hc, (IH Ha).
    destruct (py.partition sep b) as [[x y]|]; reflexivity.
Qed.

Lemma startswith_app s p :
  py.startswith s p = true -> exists s', s = p +:+ s'.
Proof.
  unfold py.startswith. revert s.
  induction p as [|c p IH]; intros s H.
  - exists s. reflexivity.
  - destruct s as [|d s]; [discriminate H|].
    cbn [String.prefix] in H.
    destruct (ascii_dec c d) as [<-|]; [|discriminate H].
    destruct (IH s H) as (s' & ->). exists s'. reflexivity.
Qed.

(** The statements of the [try] block cannot fail once the input starts
    with data:image and holds a comma: the type is what stands between the
    first colon and the first semicolon of the header. *)
Lemma parse_data_url_with_comma s header data :
  py.startswith s "data:image" = true ->
  py.partition "," s = Some (header, data) ->
  exists rest, parse_data_url s = Ok (data, "image" +:+ rest).
Proof.
  intros (s' & ->)%startswith_app Hp.
  unfold parse_data_url, py.split1. rewrite Hp. cbn [py.unpack2 result_bind].
  rewrite (partition_app "," "data:image" s' eq_refl) in Hp.
  destruct (py.partition "," s') as [[x y]|]; [|discriminate Hp].
  injection Hp as <- <-.
  rewrite (partition_app ";" "data:image" x eq_refl).
  destruct (py.partition ";" x) as [[h t]|]; cbn [py.getitem lookup list_lookup result_bind].
  - exists h. reflexivity.
  - exists x. reflexivity.
Qed.

(** A well-formed data URL is split into its payload and its type. *)
Lemma prepare_image_for_api_data_url w fmt payload :
  let image_input := "data:image/" +:+ fmt +:+ ";base64," +:+ payload in
  os_path_exists (fs w) image_input = false ->
  has_char "," fmt = false ->
  has_char ";" fmt = false ->
  prepare_image_for_api w image_input = Ok (payload, "image/" +:+ fmt).
Proof.
  intros image_input Hex Hcomma Hsemi.
  unfold prepare_image_for_api. rewrite Hex.
  change (py.startswith image_input "data:image") with true. cbv iota.
  assert (Hp : py.partition "," image_input
               = Some ("data:image/" +:+ fmt +:+ ";base64", payload)).
  { unfold image_input.
    rewrite (partition_app "," "data:image/" _ eq_refl).
    rewrite (partition_app "," fmt _ Hcomma). reflexivity. }
  unfold parse_data_url, py.split1. rewrite Hp. cbn [py.unpack2 result_bind].
  rewrite (partition_app ";" "data:image/" _ eq_refl).
  rewrite (partition_app ";" fmt _ Hsemi).
  change (py.partition ";" ";base64") with (Some (EmptyString, "base64"%string)).
  cbv iota beta. rewrite append_nil_r.
  cbn [py.getitem lookup list_lookup result_bind].
  rewrite partition_colon. reflexivity.
Qed.

Lemma prepare_image_for_api_data_url_witness :
  prepare_image_for_api (sample_world 500)
    "data:image/png;base64,ZmFrZV9pbWFnZV9kYXRh"
  = Ok ("ZmFrZV9pbWFnZV9kYXRh"%string, "image/png"%string).
Proof.
  apply (prepare_image_for_api_data_url (sample_world 500) "png"
           "ZmFrZV9pbWFnZV9kYXRh"); reflexivity.
Defined.

(** Without a comma the first statement of the [try] block fails, and the
    handler fails in turn: it indexes the same one-element split. *)
Lemma prepare_image_for_api_no_comma w s :
  os_path_exists (fs w) s = false ->
  py.startswith s "data:image" = true ->
  py.partition "," s = None ->
  prepare_image_for_api w s = Raise (IndexError "list index out of range").
Proof.
  intros Hex Hst Hp. unfold prepare_image_for_api. rewrite Hex, Hst.
  unfold parse_data_url, py.split1. rewrite Hp. reflexivity.
Qed.

(** The image/jpeg fall-back of the data-URL branch never returns: such an
    input either parses, or makes [prepare_image_for_api] raise. *)
Lemma prepare_image_for_api_data_url_cases w s :
  os_path_exists (fs w) s = false ->
  py.startswith s "data:image" = true ->
  (exists header data rest,
      py.partition "," s = Some (header, data)
      /\ prepare_image_for_api w s = Ok (data, "image" +:+ rest))
  \/ (py.partition "," s = None
      /\ prepare_image_for_api w s = Raise (IndexError "list index out of range")).
Proof.
  intros Hex Hst.
  destruct (py.partition "," s) as [[header data]|] eqn:Hp.
  - left. destruct (parse_data_url_with_comma s header data Hst Hp) as (rest & Hr).
    exists header, data, rest. split; [reflexivity|].
    unfold prepare_image_for_api. rewrite Hex, Hst, Hr. reflexivity.
  - right. split; [reflexivity|]. now apply prepare_image_for_api_no_comma.
Qed.

(** C7, at an input on which the header cannot be parsed: the fall-back
    does not return the image/jpeg default, [prepare_image_for_api] raises
    [IndexError]. *)
Theorem prepare_image_for_api_fallback_raises :
  os_path_exists (fs (sample_world 500)) "data:image/png;base64" = false
  /\ py.startswith "data:image/png;base64" "data:image" = true
  /\ prepare_image_for_api (sample_world 500) "data:image/png;base64"
     = Raise (IndexError "list index out of range").
Proof. repeat split. Qed.

(** ** The vision-API client *)

Lemma posts_made_app t1 t2 : posts_made (t1 ++ t2) = (posts_made t1 + posts_made t2)%nat.
Proof. unfold posts_made. now rewrite List.filter_app, length_app. Qed.

Lemma call_glm_vision_api_ready w p image_base64 prompt mime_type max_tokens
  max_retries retry_delay :
  configured p = true ->
  is_valid_base64 image_base64 = true ->
  call_glm_vision_api w p image_base64 prompt mime_type max_tokens
    max_retries retry_delay
  = retry_loop w
      (build_request (server p) image_base64 prompt
         (validate_image_format mime_type) max_tokens)
      max_retries retry_delay (range max_retries) None.
Proof.
  unfold configured, call_glm_vision_api.
  intros [-> ->]%andb_prop ->. reflexivity.
Qed.

Section RetryLoop.

Variables (w : World) (req : request) (max_retries : Z) (retry_delay : Q).

(** One iteration of the loop. *)
Lemma retry_loop_cons attempt rest last_error t :
  retry_loop w req max_retries retry_delay (attempt :: rest) last_error t =
  match handle_outcome (transport w (posts_made t) req) with
  | Return content => (Ok content, t ++ [Post req])
  | Captured e true => (Raise e, t ++ [Post req])
  | Captured e false =>
      if (attempt <? max_retries - 1) && (1024 <=? attempt)
      then (Raise (OverflowError "int too large to convert to float"),
            t ++ [Post req])
      else
        retry_loop w req max_retries retry_delay rest (Some e)
          (if attempt <? max_retries - 1
           then (t ++ [Post req]) ++ [Sleep (backoff_delay retry_delay attempt)]
           else t ++ [Post req])
  end.
Proof.
  cbn [retry_loop]. unfold bind, post.
  destruct (handle_outcome _) as [content | e [|]]; try reflexivity.
  unfold when, lift, scaled_delay.
  destruct (attempt <? max_retries - 1); [|reflexivity].
  destruct (1024 <=? attempt); reflexivity.
Qed.

(** The loop when every remaining attempt is captured and retried. The
    attempts are [i0, ..., i0 + n], the last one being [max_retries - 1]. *)
Lemma retry_loop_exhausts :
  forall (n i0 : nat) (t : trace) (last_error : option exn),
    posts_made t = i0 ->
    Z.of_nat (i0 + S n) = max_retries ->
    max_retries <= 1025 ->
    (forall i, (i0 <= i < i0 + S n)%nat ->
       exists e, handle_outcome (transport w i req) = Captured e false) ->
    exists e,
      handle_outcome (transport w (i0 + n) req) = Captured e false
      /\ retry_loop w req max_retries retry_delay
           (List.map Z.of_nat (seq i0 (S n))) last_error t
         = (Raise e,
            t ++ Post req
              :: flat_map
                   (fun attempt =>
                      [Sleep (backoff_delay retry_delay attempt); Post req])
                   (List.map Z.of_nat (seq i0 n))).
Proof.
  induction n as [|n IH]; intros i0 t last_error Hposts Hmax Hsmall Hfail.
  - destruct (Hfail i0 ltac:(lia)) as (e & He).
    exists e. rewrite Nat.add_0_r. split; [exact He|].
    cbn [seq List.map flat_map]. rewrite retry_loop_cons, Hposts, He.
    replace (Z.of_nat i0 <? max_retries - 1) with false
      by (symmetry; apply Z.ltb_ge; lia).
    reflexivity.
  - destruct (Hfail i0 ltac:(lia)) as (e0 & He0).
    destruct (IH (S i0)
                ((t ++ [Post req])
                   ++ [Sleep (backoff_delay retry_delay (Z.of_nat i0))])
                (Some e0)) as (e & He & Hloop).
    + rewrite !posts_made_app, Hposts. cbn. lia.
    + lia.
    + exact Hsmall.
    + intros i Hi. apply Hfail. lia.
    + exists e.
      split; [replace (i0 + S n)%nat with (S i0 + n)%nat by lia; exact He|].
      change (seq i0 (S (S n))) with (i0 :: seq (S i0) (S n)).
      cbn [List.map]. rewrite retry_loop_cons, Hposts, He0.
      replace (Z.of_nat i0 <? max_retries - 1) with true
        by (symmetry; apply Z.ltb_lt; lia).
      replace (1024 <=? Z.of_nat i0) with false
        by (symmetry; apply Z.leb_gt; lia).
      cbn [andb]. rewrite Hloop. f_equal.
      change (seq i0 (S n)) with (i0 :: seq (S i0) n).
      cbn [List.map flat_map]. rewrite <- !app_assoc. reflexivity.
Qed.

(** From the first attempt on: [max_retries] captured failures leave the
    trace of an exhausted call and raise the error captured last. *)
Lemma retry_loop_all_captured :
  1 <= max_retries <= 1025 ->
  (forall i, (i < Z.to_nat max_retries)%nat ->
     exists e, handle_outcome (transport w i req) = Captured e false) ->
  exists e,
    handle_outcome (transport w (Z.to_nat max_retries - 1) req) = Captured e false
    /\ retry_loop w req max_retries retry_delay (range max_retries) None []
       = (Raise e, exhausted_trace req retry_delay max_retries).
Proof.
  intros Hn Hfail.
  destruct (retry_loop_exhausts (Z.to_nat max_retries - 1) 0 [] None)
    as (e & He & Hloop).
  - reflexivity.
  - lia.
  - lia.
  - intros i Hi. apply Hfail. lia.
  - exists e. split; [exact He|].
    unfold range.
    replace (Z.to_nat max_retries) with (S (Z.to_nat max_retries - 1)) at 1 by lia.
    rewrite Hloop. unfold exhausted_trace, range.
    replace (Z.to_nat (max_retries - 1)) with (Z.to_nat max_retries - 1)%nat by lia.
    reflexivity.
Qed.

End RetryLoop.

(** C4. When the API key is missing or the image is not valid base64, the
    call raises a [ValueError] and leaves the trace as it was: no post and
    no sleep, whatever the other arguments. *)
Theorem call_glm_vision_api_rejects_early (w : World) (p : Process)
  (image_base64 prompt mime_type : string) (max_tokens max_retries : Z)
  (retry_delay : Q) (t : trace) :
  py.truthy (GLM_API_KEY (server p)) = false
  \/ is_valid_base64 image_base64 = false ->
  exists msg,
    call_glm_vision_api w p image_base64 prompt mime_type max_tokens
      max_retries retry_delay t
    = (Raise (ValueError msg), t).
Proof.
  intros H. unfold call_glm_vision_api.
  destruct (py.truthy (GLM_API_KEY (server p))); cbn [negb]; [|eexists; reflexivity].
  destruct (py.truthy (Some (GLM_API_BASE (server p)))); cbn [negb];
    [|eexists; reflexivity].
  destruct H as [H | ->]; [discriminate H|]. eexists; reflexivity.
Qed.

Lemma call_glm_vision_api_rejects_early_witness :
  exists msg,
    call_glm_vision_api (sample_world 500) sample_process "not base64!" "prompt"
      "image/png" 100 5 (2 # 1) []
    = (Raise (ValueError msg), []).
Proof.
  apply (call_glm_vision_api_rejects_early (sample_world 500) sample_process
           "not base64!" "prompt" "image/png" 100 5 (2 # 1) []).
  right. reflexivity.
Defined.

(** C10. With [max_retries <= 0] (and the key, the base URL and the image
    accepted) the loop body never runs: no post is made and the call raises
    the [RuntimeError] of the final [else] branch. *)
Theorem call_glm_vision_api_no_attempts (w : World) (p : Process)
  (image_base64 prompt mime_type : string) (max_tokens max_retries : Z)
  (retry_delay : Q) (t : trace) :
  max_retries <= 0 ->
  configured p = true ->
  is_valid_base64 image_base64 = true ->
  call_glm_vision_api w p image_base64 prompt mime_type max_tokens
    max_retries retry_delay t
  = (Raise (RuntimeError "Failed to call GLM API after maximum retries"), t).
Proof.
  intros Hn Hc Hv. rewrite call_glm_vision_api_ready by assumption.
  unfold range. replace (Z.to_nat max_retries) with 0%nat by lia.
  reflexivity.
Qed.

Lemma call_glm_vision_api_no_attempts_witness :
  call_glm_vision_api (sample_world 500) sample_process "QUJD" "prompt"
    "image/png" 100 (-1) (2 # 1) []
  = (Raise (RuntimeError "Failed to call GLM API after maximum retries"), []).
Proof.
  apply (call_glm_vision_api_no_attempts (sample_world 500) sample_process
           "QUJD" "prompt" "image/png" 100 (-1) (2 # 1) []);
    [lia | reflexivity | reflexivity].
Defined.

Lemma range_pos n : 1 <= n -> exists rest, range n = 0 :: rest.
Proof.
  intros H. unfold range.
  destruct (Z.to_nat n) as [|k] eqn:E; [lia|].
  eexists. reflexivity.
Qed.

(** C3. When the first attempt is answered with status 401, 403 or 429,
    the call makes that one post, does not sleep, and raises the error built
    from that response. *)
Theorem call_glm_vision_api_no_retry (w : World) (p : Process)
  (image_base64 prompt mime_type : string) (max_tokens max_retries : Z)
  (retry_delay : Q) (resp : response) :
  let req := build_request (server p) image_base64 prompt
               (validate_image_format mime_type) max_tokens in
  1 <= max_retries ->
  configured p = true ->
  is_valid_base64 image_base64 = true ->
  transport w 0 req = HTTPStatusError resp ->
  status_code resp = 401 \/ status_code resp = 403 \/ status_code resp = 429 ->
  call_glm_vision_api w p image_base64 prompt mime_type max_tokens
    max_retries retry_delay []
  = (Raise (RuntimeError (http_error_msg resp)), [Post req]).
Proof.
  intros req Hn Hc Hv Ht Hs.
  rewrite call_glm_vision_api_ready by assumption. fold req.
  destruct (range_pos max_retries Hn) as (rest & ->).
  rewrite retry_loop_cons.
  change (posts_made []) with 0%nat. rewrite Ht. cbn [handle_outcome].
  replace (no_retry_status (status_code resp)) with true; [reflexivity|].
  unfold no_retry_status. destruct Hs as [-> | [-> | ->]]; reflexivity.
Qed.

Lemma call_glm_vision_api_no_retry_witness :
  call_glm_vision_api (sample_world 401) sample_process "QUJD" "prompt"
    "image/png" 100 5 (2 # 1) []
  = (Raise (RuntimeError "GLM API error: 401 - upstream failure"),
     [Post (build_request (server sample_process) "QUJD" "prompt" "image/png" 100)]).
Proof.
  apply (call_glm_vision_api_no_retry (sample_world 401) sample_process "QUJD"
           "prompt" "image/png" 100 5 (2 # 1) (sample_response 401));
    [lia | reflexivity | reflexivity | reflexivity | left; reflexivity].
Defined.










(** ** The orchestrator *)

(** The orchestrator, case by case on what its two components do. *)
Lemma analyze_image_with_context_run w p image_data user_context max_tokens ctx t :
  analyze_image_with_context w p image_data user_context max_tokens ctx t =
  let started := notify ctx (Info "Starting image analysis with context...") t in
  match prepare_image_for_api w image_data with
  | Raise e =>
      (Ok (analysis_failed e), notify ctx (Error (analysis_failed e)) started)
  | Ok (image_base64, mime_type) =>
      match call_glm_vision_api w p image_base64 (enhanced_prompt user_context)
              mime_type max_tokens 5 (2 # 1) started with
      | (Raise e, t') =>
          (Ok (analysis_failed e), notify ctx (Error (analysis_failed e)) t')
      | (Ok answer, t') =>
          (Ok answer,
           notify ctx (Info "Image analysis completed successfully") t')
      end
  end.
Proof.
  unfold analyze_image_with_context, try_catch, bind, lift, when, emit, ret,
    notify, analysis_failed.
  destruct ctx;
    (destruct (prepare_image_for_api w image_data) as [[b64 mime]|e];
     [destruct (call_glm_vision_api _ _ _ _ _ _ _ _ _) as [[answer|e] t']|];
     reflexivity).
Qed.

(** With a sink, each notification is a call that may raise: the run of
    the orchestrator, case by case. *)
Lemma analyze_image_with_context_sink_run w p image_data user_context
  max_tokens ctx t :
  analyze_image_with_context_sink w p image_data user_context max_tokens ctx t =
  let handler e t' :=
    match ctx_error ctx (analysis_failed e) t' with
    | (Ok _, t'') => (Ok (analysis_failed e), t'')
    | (Raise e', t'') => (Raise e', t'')
    end in
  match ctx_info ctx "Starting image analysis with context..." t with
  | (Raise e, started) => handler e started
  | (Ok _, started) =>
      match prepare_image_for_api w image_data with
      | Raise e => handler e started
      | Ok (image_base64, mime_type) =>
          match call_glm_vision_api w p image_base64
                  (enhanced_prompt user_context) mime_type max_tokens 5 (2 # 1)
                  started with
          | (Raise e, t') => handler e t'
          | (Ok answer, t') =>
              match ctx_info ctx "Image analysis completed successfully" t' with
              | (Raise e, t'') => handler e t''
              | (Ok _, t'') => (Ok answer, t'')
              end
          end
      end
  end.
Proof.
  unfold analyze_image_with_context_sink, analysis_body, try_catch, bind, lift,
    ret, analysis_failed.
  destruct (ctx_info ctx _ t) as [[[]|e0] started]; [|reflexivity].
  destruct (prepare_image_for_api w image_data) as [[b64 mime]|e]; [|reflexivity].
  destruct (call_glm_vision_api _ _ _ _ _ _ _ _ _) as [[answer|e] t'];
    [|reflexivity].
  destruct (ctx_info ctx _ t') as [[[]|e1] t'']; reflexivity.
Qed.

Lemma ctx_error_accepted ctx msg t :
  error_accepted ctx ->
  ctx_error ctx msg t = (Ok tt, notify (has_sink ctx) (Error msg) t).
Proof.
  intros H. destruct ctx as [sink|]; [|reflexivity].
  unfold ctx_error. now rewrite (H sink eq_refl).
Qed.

Lemma ctx_info_accepted ctx msg t :
  (forall sink, ctx = Some sink -> accepts_all sink) ->
  ctx_info ctx msg t = (Ok tt, notify (has_sink ctx) (Info msg) t).
Proof.
  intros H. destruct ctx as [sink|]; [|reflexivity].
  unfold ctx_info. now rewrite (proj1 (H sink eq_refl msg t)).
Qed.

Lemma accepts_all_error_accepted ctx :
  (forall sink, ctx = Some sink -> accepts_all sink) -> error_accepted ctx.
Proof. intros H sink E msg t. apply (H sink E msg t). Qed.

(** Without a sink, and with a sink that accepts every notification, the
    orchestrator is [analyze_image_with_context]. *)
Lemma analyze_image_with_context_sink_accepting w p image_data user_context
  max_tokens ctx t :
  (forall sink, ctx = Some sink -> accepts_all sink) ->
  analyze_image_with_context_sink w p image_data user_context max_tokens ctx t
  = analyze_image_with_context w p image_data user_context max_tokens
      (has_sink ctx) t.
Proof.
  intros H.
  rewrite analyze_image_with_context_sink_run, analyze_image_with_context_run.
  cbv zeta. rewrite (ctx_info_accepted ctx _ t H).
  destruct (prepare_image_for_api w image_data) as [[b64 mime]|e].
  - destruct (call_glm_vision_api _ _ _ _ _ _ _ _ _) as [[answer|e] t'].
    + now rewrite (ctx_info_accepted ctx _ t' H).
    + now rewrite ctx_error_accepted by now apply accepts_all_error_accepted.
  - now rewrite ctx_error_accepted by now apply accepts_all_error_accepted.
Qed.




(** ** Configuration *)

Lemma call_glm_vision_api_config w p p' image_base64 prompt mime_type
  max_tokens max_retries retry_delay :
  server p = server p' ->
  call_glm_vision_api w p image_base64 prompt mime_type max_tokens
    max_retries retry_delay
  = call_glm_vision_api w p' image_base64 prompt mime_type max_tokens
      max_retries retry_delay.
Proof. intros H. unfold call_glm_vision_api. now rewrite H. Qed.

Lemma analyze_image_with_context_config w p p' image_data user_context
  max_tokens ctx t :
  server p = server p' ->
  analyze_image_with_context w p image_data user_context max_tokens ctx t
  = analyze_image_with_context w p' image_data user_context max_tokens ctx t.
Proof.
  intros H. rewrite !analyze_image_with_context_run. cbv zeta.
  destruct (prepare_image_for_api w image_data) as [[b64 mime]|e]; [|reflexivity].
  now rewrite (call_glm_vision_api_config w p p' _ _ _ _ _ _ H).
Qed.

Lemma server_apply_env_ops ops p : server (apply_env_ops ops p) = server p.
Proof.
  unfold apply_env_ops. revert p.
  induction ops as [|op ops IH]; intros p; [reflexivity|].
  cbn [fold_left]. rewrite IH. now destruct op.
Qed.

(** The three configuration variables are assigned once, when the module
    is loaded, and every call reads those module variables: whatever is set
    or unset in the environment afterwards, the client and the orchestrator
    behave as they did right after the import. *)
Lemma configuration_fixed_at_import (w : World) (env0 : gmap string string)
  (ops : list env_op) (image_data text mime_type : string)
  (max_tokens max_retries : Z) (retry_delay : Q) (ctx : bool) (t : trace) :
  let p := apply_env_ops ops (import_server env0) in
  server p = load_config env0
  /\ call_glm_vision_api w p image_data text mime_type max_tokens max_retries
       retry_delay t
     = call_glm_vision_api w (import_server env0) image_data text mime_type
         max_tokens max_retries retry_delay t
  /\ analyze_image_with_context w p image_data text max_tokens ctx t
     = analyze_image_with_context w (import_server env0) image_data text
         max_tokens ctx t.
Proof.
  intros p.
  assert (H : server p = server (import_server env0))
    by apply server_apply_env_ops.
  split; [exact H|]. split.
  - now rewrite (call_glm_vision_api_config w p (import_server env0)).
  - now apply analyze_image_with_context_config.
Qed.

(** A call does not read the environment: after the key is replaced there,
    the next call still sends the key that was there at import. *)
Lemma reads_environment_per_call_fails : ~ reads_environment_per_call.
Proof.
  intros H.
  specialize (H (sample_world 401)
                (setenv "GLM_API_KEY" "rotated" sample_process)
                "QUJD"%string "prompt"%string "image/png"%string 100 1 (2 # 1) []).
  vm_compute in H. discriminate H.
Qed.

(** C5. The test [test_call_glm_vision_api_no_api_key] of the repository
    deletes GLM_API_KEY from the environment of the running process and
    expects the next call, on the image test_data, to raise the
    [ValueError] of the missing key: the configuration is to be read at
    every call, as the claim says. The code does not: in a process that
    was started with the key, the module variable still holds it after the
    deletion, the call goes on to the base64 check and raises another
    error, and on a valid image it posts with the deleted key. The error
    the test expects is the one of a process started without the key. *)
Theorem test_call_glm_vision_api_no_api_key_fails :
  let p := unsetenv "GLM_API_KEY" sample_process in
  getenv (environ sample_process) "GLM_API_KEY" = Some "secret"%string
  /\ getenv (environ p) "GLM_API_KEY" = None
  /\ call_glm_vision_api (sample_world 500) p "test_data" "test prompt"
       "image/jpeg" 2048 5 (2 # 1) []
     = (Raise (ValueError "Invalid base64 image data"), [])
  /\ (let req := build_request (server p) "QUJD" "test prompt" "image/jpeg"
                   2048 in
      authorization req = "Bearer secret"%string
      /\ call_glm_vision_api (sample_world 401) p "QUJD" "test prompt"
           "image/jpeg" 2048 5 (2 # 1) []
         = (Raise (RuntimeError (http_error_msg (sample_response 401))),
            [Post req]))
  /\ call_glm_vision_api (sample_world 500) (import_server (environ p))
       "test_data" "test prompt" "image/jpeg" 2048 5 (2 # 1) []
     = (Raise (ValueError "GLM_API_KEY environment variable not set"), []).
Proof.
  cbv zeta. repeat split.
Qed.

(** ** The cases of the test suite *)

Example test_prepare_image_for_api_base64_only :
  prepare_image_for_api (sample_world 500) "ZmFrZV9pbWFnZV9kYXRh"
  = Ok ("ZmFrZV9pbWFnZV9kYXRh"%string, "image/jpeg"%string).
Proof. reflexivity. Qed.

Example test_encode_file_to_base64_file_not_exists :
  encode_file_to_base64 (sample_world 500) "/non/existent/file.txt"
  = Raise (ValueError "File not found: /non/existent/file.txt").
Proof. reflexivity. Qed.

Example test_backoff_delays :
  sleeps_of
    (snd (call_glm_vision_api (sample_world 500) sample_process "QUJD"
            "test prompt" "image/jpeg" 2048 5 (2 # 1) []))
  = [2 # 1; 4 # 1; 8 # 1; 16 # 1]%Q.
Proof. vm_compute. reflexivity. Qed.

(** * Further properties *)

(** ** Strings *)

Lemma prefix_append sub b : String.prefix sub (sub +:+ b) = true.
Proof.
  induction sub as [|c sub IH]; [now destruct b|].
  rewrite append_cons. cbn [String.prefix].
  destruct (ascii_dec c c) as [_|Hne]; [exact IH | now destruct Hne].
Qed.

Lemma contains_prefix sub s : String.prefix sub s = true -> contains sub s = true.
Proof. intros H. destruct s; cbn [contains]; now rewrite H. Qed.

Lemma contains_append sub a b : contains sub (a +:+ sub +:+ b) = true.
Proof.
  induction a as [|c a IH].
  - rewrite append_nil. apply contains_prefix, prefix_append.
  - rewrite append_cons. cbn [contains]. rewrite IH. apply orb_true_r.
Qed.

Lemma length_append a b :
  String.length (a +:+ b) = (String.length a + String.length b)%nat.
Proof.
  induction a as [|c a IH]; [reflexivity|].
  rewrite append_cons. cbn [String.length]. now rewrite IH.
Qed.

Lemma has_char_append c a b : has_char c (a +:+ b) = has_char c a || has_char c b.
Proof.
  unfold has_char. induction a as [|d a IH]; [reflexivity|].
  rewrite append_cons. cbn [list_ascii_of_string existsb].
  now rewrite IH, orb_assoc.
Qed.

(** [partition] splits at the first occurrence of the separator. *)
Lemma partition_Some sep s a b :
  py.partition sep s = Some (a, b) ->
  s = a +:+ String sep b /\ has_char sep a = false.
Proof.
  revert a. induction s as [|c s IH]; intros a H; [discriminate H|].
  cbn [py.partition] in H.
  destruct (Ascii.eqb c sep) eqn:E.
  - apply Ascii.eqb_eq in E. subst c. injection H as <- <-. split; reflexivity.
  - destruct (py.partition sep s) as [[x y]|]; [|discriminate H].
    injection H as <- <-. destruct (IH x eq_refl) as (-> & Hx).
    split; [reflexivity|].
    unfold has_char in *. cbn [list_ascii_of_string existsb].
    now rewrite Ascii.eqb_sym, E, Hx.
Qed.

Lemma partition_None sep s :
  py.partition sep s = None <-> has_char sep s = false.
Proof.
  unfold has_char. induction s as [|c s IH]; [split; reflexivity|].
  cbn [py.partition list_ascii_of_string existsb].
  rewrite (Ascii.eqb_sym sep c).
  destruct (Ascii.eqb c sep); [split; discriminate|].
  cbn [orb]. rewrite <- IH.
  destruct (py.partition sep s) as [[x y]|]; split; congruence.
Qed.

(** ** Reading files *)

(** X1. [encode_file_to_base64] raises nothing but [ValueError]; it raises
    only when the path is not a readable file, and the message names the
    path. *)
Theorem encode_file_to_base64_raises (w : World) (file_path : string) (e : exn) :
  encode_file_to_base64 w file_path = Raise e ->
  is_ValueError e = true
  /\ contains file_path (str_exn e) = true
  /\ forall content, fs w !! file_path <> Some (File content).
Proof.
  unfold encode_file_to_base64, read_file.
  destruct (fs w !! file_path) as [[content| |err]|]; intros H;
    [discriminate H | | |]; injection H as <-;
    (split; [reflexivity|]); (split; [|discriminate]); cbn [str_exn].
  - rewrite <- (append_nil_r file_path) at 2. apply contains_append.
  - apply contains_append.
  - rewrite <- (append_nil_r file_path) at 2. apply contains_append.
Qed.

Lemma encode_file_to_base64_raises_witness :
  is_ValueError (ValueError "File not found: /non/existent/file.txt") = true
  /\ contains "/non/existent/file.txt"
       (str_exn (ValueError "File not found: /non/existent/file.txt")) = true
  /\ forall content,
       fs (sample_world 500) !! "/non/existent/file.txt"%string
       <> Some (File content).
Proof.
  apply (encode_file_to_base64_raises (sample_world 500)
           "/non/existent/file.txt").
  reflexivity.
Defined.

(** ** Normalisation as a whole *)

Lemma os_path_exists_None w path :
  fs w !! path = None -> os_path_exists (fs w) path = false.
Proof. intros H. apply bool_decide_eq_false. rewrite H. now intros [? ?]. Qed.

(** X2. [prepare_image_for_api] fails in two situations only: the input
    names an existing path that cannot be read as a file, or it starts with
    data:image and holds no comma. *)
Theorem prepare_image_for_api_raises_iff (w : World) (image_input : string) :
  (exists e, prepare_image_for_api w image_input = Raise e)
  <-> ((exists entry, fs w !! image_input = Some entry
                      /\ forall content, entry <> File content)
       \/ (fs w !! image_input = None
           /\ py.startswith image_input "data:image" = true
           /\ has_char "," image_input = false)).
Proof.
  unfold prepare_image_for_api.
  destruct (fs w !! image_input) as [entry|] eqn:Hfs.
  - rewrite (os_path_exists_file w _ _ Hfs).
    unfold encode_file_to_base64, read_file. rewrite Hfs.
    destruct entry as [content| |err]; split.
    + intros [e He]. discriminate He.
    + intros [(entry & Hentry & Hne) | (Hnone & _)]; [|discriminate Hnone].
      injection Hentry as <-. now destruct (Hne content).
    + intros _. left. eexists. split; [reflexivity | discriminate].
    + intros _. eexists. reflexivity.
    + intros _. left. eexists. split; [reflexivity | discriminate].
    + intros _. eexists. reflexivity.
  - rewrite (os_path_exists_None w _ Hfs).
    destruct (py.startswith image_input "data:image") eqn:Hst.
    + destruct (py.partition "," image_input) as [[header data]|] eqn:Hp.
      * destruct (parse_data_url_with_comma _ _ _ Hst Hp) as (rest & ->).
        cbn [try_except]. split.
        -- intros [e He]. discriminate He.
        -- intros [(entry & Hentry & _) | (_ & _ & Hc)]; [discriminate Hentry|].
           apply partition_None in Hc. congruence.
      * split; [|intros _; unfold parse_data_url, py.split1; rewrite Hp; eexists; reflexivity].
        intros _. right. repeat split. now apply partition_None.
    + split.
      * intros [e He]. discriminate He.
      * intros [(entry & Hentry & _) | (_ & Hst' & _)]; discriminate.
Qed.

Lemma startswith_image_slash g :
  py.startswith g "image/" = true -> py.startswith g "image" = true.
Proof. intros (s & ->)%startswith_app. reflexivity. Qed.

(** X3. Whatever the input, the type [prepare_image_for_api] returns starts
    with image. *)
Theorem prepare_image_for_api_mime_is_image (w : World) (image_input data mime : string) :
  prepare_image_for_api w image_input = Ok (data, mime) ->
  py.startswith mime "image" = true.
Proof.
  unfold prepare_image_for_api.
  destruct (os_path_exists (fs w) image_input).
  - unfold encode_file_to_base64.
    destruct (read_file (fs w) image_input) as [[| |err]|content];
      intros H; try discriminate H.
    injection H as _ <-.
    destruct (guess_type w image_input) as [g|]; [|reflexivity].
    unfold default, id. cbn [py.truthy].
    destruct (py.startswith g "image/") eqn:E.
    + assert (Hne : String.eqb g EmptyString = false)
        by (destruct g; [discriminate E | reflexivity]).
      rewrite Hne. cbn [negb orb]. now apply startswith_image_slash.
    + cbn [negb]. now rewrite orb_true_r.
  - destruct (py.startswith image_input "data:image") eqn:Hst.
    + destruct (py.partition "," image_input) as [[header payload]|] eqn:Hp.
      * destruct (parse_data_url_with_comma _ _ _ Hst Hp) as (rest & ->).
        cbn [try_except]. intros H. injection H as _ <-.
        apply prefix_append.
      * unfold parse_data_url, py.split1. rewrite Hp. intros H. discriminate H.
    + intros H. injection H as _ <-. reflexivity.
Qed.

Lemma prepare_image_for_api_mime_is_image_witness :
  py.startswith "image/gif" "image" = true.
Proof.
  apply (prepare_image_for_api_mime_is_image (sample_world 500) "photo.gif"
           "R0lG" "image/gif").
  reflexivity.
Defined.

(** X4. A data URL with a comma always parses: the payload is everything
    after the first comma, and the type is what stands in the header between
    data: and its first semicolon (or its end). *)
Theorem prepare_image_for_api_data_url_split (w : World) (image_input : string) :
  os_path_exists (fs w) image_input = false ->
  py.startswith image_input "data:image" = true ->
  has_char "," image_input = true ->
  exists header data mime,
    image_input = header +:+ "," +:+ data
    /\ has_char "," header = false
    /\ prepare_image_for_api w image_input = Ok (data, mime)
    /\ has_char ";" mime = false
    /\ (header = "data:" +:+ mime
        \/ exists params, header = "data:" +:+ mime +:+ ";" +:+ params).
Proof.
  intros Hex Hst Hcomma.
  destruct (py.partition "," image_input) as [[header data]|] eqn:Hp;
    [|apply partition_None in Hp; congruence].
  destruct (partition_Some _ _ _ _ Hp) as (Hsplit & Hheader).
  destruct (startswith_app _ _ Hst) as (s' & Hs').
  assert (Hh : exists x, header = "data:image" +:+ x).
  { rewrite Hs' in Hp.
    rewrite (partition_app "," "data:image" s' eq_refl) in Hp.
    destruct (py.partition "," s') as [[x y]|]; [|discriminate Hp].
    injection Hp as <- _. now exists x. }
  destruct Hh as (x & Hx).
  unfold prepare_image_for_api. rewrite Hex, Hst.
  unfold parse_data_url, py.split1. rewrite Hp. cbn [py.unpack2 result_bind].
  rewrite Hx, (partition_app ";" "data:image" x eq_refl).
  destruct (py.partition ";" x) as [[h params]|] eqn:Hsemi.
  - destruct (partition_Some _ _ _ _ Hsemi) as (-> & Hh).
    exists ("data:image" +:+ h +:+ String ";" params), data, ("image" +:+ h).
    repeat split.
    + now rewrite Hsplit, Hx.
    + now rewrite <- Hx.
    + now rewrite (has_char_append ";" "image" h), Hh.
    + right. exists params. reflexivity.
  - apply partition_None in Hsemi.
    exists ("data:image" +:+ x), data, ("image" +:+ x).
    repeat split.
    + now rewrite Hsplit, Hx.
    + now rewrite <- Hx.
    + now rewrite (has_char_append ";" "image" x), Hsemi.
    + left. reflexivity.
Qed.

Lemma prepare_image_for_api_data_url_split_witness :
  exists header data mime,
    "data:image/png,AAAA"%string = header +:+ "," +:+ data
    /\ has_char "," header = false
    /\ prepare_image_for_api (sample_world 500) "data:image/png,AAAA"
       = Ok (data, mime)
    /\ has_char ";" mime = false
    /\ (header = "data:" +:+ mime
        \/ exists params, header = "data:" +:+ mime +:+ ";" +:+ params).
Proof.
  apply (prepare_image_for_api_data_url_split (sample_world 500)
           "data:image/png,AAAA"); reflexivity.
Defined.

(** X5. The data URL the client builds for a payload is read back by the
    normaliser as that payload and that type. *)
Theorem prepare_image_for_api_request_url (w : World) (c : Config)
  (image_base64 prompt mime_type : string) (max_tokens : Z) :
  let req := build_request c image_base64 prompt
               (validate_image_format mime_type) max_tokens in
  os_path_exists (fs w) (image_url req) = false ->
  prepare_image_for_api w (image_url req)
  = Ok (image_base64, validate_image_format mime_type).
Proof.
  intros req. unfold req. cbn [image_url build_request].
  destruct (validate_image_format_supported mime_type)
    as [<- | [<- | [<- | []]]]; intros Hex.
  - apply (prepare_image_for_api_data_url w "jpeg" image_base64 Hex); reflexivity.
  - apply (prepare_image_for_api_data_url w "jpg" image_base64 Hex); reflexivity.
  - apply (prepare_image_for_api_data_url w "png" image_base64 Hex); reflexivity.
Qed.

Lemma prepare_image_for_api_request_url_witness :
  prepare_image_for_api (sample_world 500)
    (image_url (build_request (server sample_process) "QUJD" "prompt"
                  (validate_image_format "IMAGE/PNG") 100))
  = Ok ("QUJD"%string, validate_image_format "IMAGE/PNG").
Proof.
  apply (prepare_image_for_api_request_url (sample_world 500)
           (server sample_process) "QUJD" "prompt" "IMAGE/PNG" 100).
  reflexivity.
Defined.

Lemma div3_SSS n : Nat.div (S (S (S n)) + 2) 3 = S (Nat.div (n + 2) 3).
Proof.
  replace (S (S (S n)) + 2)%nat with ((n + 2) + 1 * 3)%nat by lia.
  rewrite Nat.div_add by lia. lia.
Qed.

(** The encoder writes four characters for every three bytes begun. *)
Lemma length_b64encode data :
  String.length (base64.b64encode data)
  = (4 * Nat.div (length data + 2) 3)%nat.
Proof.
  unfold base64.b64encode.
  induction data as [|x|x y|x y z rest IH] using list_ind3; try reflexivity.
  cbn [binascii.b2a_base64 String.length length].
  rewrite IH, div3_SSS. lia.
Qed.

(** X6. The payload prepared from a readable file of [n] bytes has
    [4 * ceil(n / 3)] characters, all of the base64 alphabet, and passes the
    client's [is_valid_base64] check. *)
Theorem prepare_image_for_api_file_payload (w : World) (path : string)
  (content : list byte) :
  fs w !! path = Some (File content) ->
  exists payload mime,
    prepare_image_for_api w path = Ok (payload, mime)
    /\ is_valid_base64 payload = true
    /\ String.length payload = (4 * Nat.div (length content + 2) 3)%nat
    /\ forall c, In c (list_ascii_of_string payload) ->
                 in_base64_alphabet c = true.
Proof.
  intros H.
  destruct (encode_file_to_base64_readable w path content H) as (mime & He & _).
  exists (base64.b64encode content), mime.
  unfold prepare_image_for_api. rewrite (os_path_exists_file w path _ H).
  split; [exact He|].
  split; [apply is_valid_base64_b64encode|].
  split; [apply length_b64encode|].
  intros c. apply is_valid_base64_alphabet, is_valid_base64_b64encode.
Qed.

Lemma prepare_image_for_api_file_payload_witness :
  exists payload mime,
    prepare_image_for_api (sample_world 500) "photo.gif" = Ok (payload, mime)
    /\ is_valid_base64 payload = true
    /\ String.length payload = 4%nat
    /\ forall c, In c (list_ascii_of_string payload) ->
                 in_base64_alphabet c = true.
Proof.
  apply (prepare_image_for_api_file_payload (sample_world 500) "photo.gif"
           ["G"%byte; "I"%byte; "F"%byte]).
  reflexivity.
Defined.

(** ** More on base64 validation *)

Lemma length_repeat_char c n : String.length (py.repeat_char c n) = n.
Proof. induction n as [|n IH]; [reflexivity|]. cbn. now rewrite IH. Qed.

Lemma length_add_padding s :
  Nat.modulo (String.length (add_padding s)) 4 = 0%nat.
Proof.
  unfold add_padding.
  pose proof (Nat.mod_upper_bound (String.length s) 4 ltac:(lia)) as Hlt.
  pose proof (Nat.div_mod_eq (String.length s) 4) as Hdiv.
  destruct (Nat.modulo (String.length s) 4) as [|r] eqn:E; cbn [Nat.eqb negb].
  - exact E.
  - rewrite length_append, length_repeat_char.
    replace (String.length s + (4 - S r))%nat
      with (S (Nat.div (String.length s) 4) * 4)%nat by lia.
    apply Nat.Div0.mod_mul.
Qed.

(** X7. Appending the padding that brings a string to a multiple of four
    characters does not change the verdict of [is_valid_base64]. *)
Theorem is_valid_base64_add_padding (s : string) :
  is_valid_base64 (add_padding s) = is_valid_base64 s.
Proof.
  rewrite !is_valid_base64_unfold.
  assert (H : add_padding (add_padding s) = add_padding s).
  { unfold add_padding at 1. now rewrite (length_add_padding s). }
  now rewrite H.
Qed.

Lemma is_digit_facts c :
  is_digit c = true ->
  Ascii.eqb c binascii.BASE64_PAD = false
  /\ (N_of_ascii c <? 128)%N = true
  /\ exists v, binascii.table_a2b_base64 c = Some v.
Proof.
  unfold is_digit.
  destruct (binascii.table_a2b_base64 c) as [v|] eqn:E; [|discriminate].
  intros _. split; [|split; [|now exists v]].
  - revert E. destruct c as [[] [] [] [] [] [] [] []]; vm_compute; congruence.
  - revert E. destruct c as [[] [] [] [] [] [] [] []]; vm_compute; congruence.
Qed.

Lemma decodes_fmap (f : list byte -> list byte) (o : option (list byte)) :
  bool_decide (is_Some (f <$> o)) = bool_decide (is_Some o).
Proof. apply bool_decide_ext, fmap_is_Some. Qed.

(** On padding alone the loop does not look at the pending bits. *)
Lemma a2b_loop_pads q l k :
  (q < 4)%nat -> (k <= 3)%nat ->
  binascii.a2b_loop true q l 0 false (py.repeat_char "=" k)
  = binascii.a2b_loop true q 0 0 false (py.repeat_char "=" k).
Proof.
  intros Hq Hk.
  destruct q as [|[|[|[|q]]]]; [| | | |lia];
    (destruct k as [|[|[|[|k]]]]; [| | | |lia]); reflexivity.
Qed.

(** Digits move the loop around the four positions of a group. *)
Lemma a2b_loop_digits k :
  (k <= 3)%nat ->
  forall s q l,
    all_digits s = true -> (q < 4)%nat ->
    bool_decide
      (is_Some (binascii.a2b_loop true q l 0 false (s +:+ py.repeat_char "=" k)))
    = bool_decide
        (is_Some
           (binascii.a2b_loop true (Nat.modulo (q + String.length s) 4) 0 0 false
              (py.repeat_char "=" k))).
Proof.
  intros Hk. induction s as [|c s IH]; intros q l Hs Hq.
  - rewrite append_nil. cbn [String.length].
    rewrite Nat.add_0_r, (Nat.mod_small q 4 Hq). now rewrite a2b_loop_pads.
  - unfold all_digits in Hs. cbn [list_ascii_of_string forallb] in Hs.
    apply andb_prop in Hs as [Hc Hs].
    destruct (is_digit_facts c Hc) as (Hpad & _ & v & Hv).
    rewrite append_cons. cbn [binascii.a2b_loop String.length].
    rewrite Hpad, Hv. cbn [andb].
    destruct q as [|[|[|[|q]]]]; [| | | |lia]; rewrite ?decodes_fmap.
    + rewrite (IH 1%nat v Hs ltac:(lia)).
      now replace (1 + String.length s)%nat with (0 + S (String.length s))%nat by lia.
    + rewrite (IH 2%nat _ Hs ltac:(lia)).
      now replace (2 + String.length s)%nat with (1 + S (String.length s))%nat by lia.
    + rewrite (IH 3%nat _ Hs ltac:(lia)).
      now replace (3 + String.length s)%nat with (2 + S (String.length s))%nat by lia.
    + rewrite (IH 0%nat _ Hs ltac:(lia)).
      change (3 + S (String.length s))%nat with (S (S (S (S (String.length s))))).
      now rewrite mod4_SSSS.
Qed.

Lemma is_ascii_digits s k :
  all_digits s = true -> base64.is_ascii (s +:+ py.repeat_char "=" k) = true.
Proof.
  induction s as [|c s IH]; intros Hs.
  - rewrite append_nil. induction k as [|k IHk]; [reflexivity|]. exact IHk.
  - unfold all_digits in Hs. cbn [list_ascii_of_string forallb] in Hs.
    apply andb_prop in Hs as [Hc Hs].
    destruct (is_digit_facts c Hc) as (_ & Hascii & _).
    rewrite append_cons. cbn [base64.is_ascii]. now rewrite Hascii, (IH Hs).
Qed.

Lemma b64decode_digits s k :
  all_digits s = true -> (k <= 3)%nat -> (s = EmptyString -> k = 0%nat) ->
  bool_decide (is_Some (base64.b64decode (s +:+ py.repeat_char "=" k) true))
  = bool_decide
      (is_Some
         (binascii.a2b_loop true (Nat.modulo (String.length s) 4) 0 0 false
            (py.repeat_char "=" k))).
Proof.
  intros Hs Hk Hempty. unfold base64.b64decode. rewrite (is_ascii_digits s k Hs).
  destruct s as [|c s].
  - rewrite (Hempty eq_refl). reflexivity.
  - rewrite a2b_base64_no_leading_pad.
    + now rewrite (a2b_loop_digits k Hk (String c s) 0%nat 0%N Hs ltac:(lia)).
    + rewrite append_cons. intros c' s' E. injection E as <- _.
      unfold all_digits in Hs. cbn [list_ascii_of_string forallb] in Hs.
      apply andb_prop in Hs as [Hc _]. now apply is_digit_facts in Hc.
Qed.

(** X8. A string made of base64 digits only (no padding) is accepted by
    [is_valid_base64] exactly when its length is not one more than a
    multiple of four. *)
Theorem is_valid_base64_digits (s : string) :
  all_digits s = true ->
  is_valid_base64 s = negb (Nat.modulo (String.length s) 4 =? 1)%nat.
Proof.
  intros Hs. rewrite is_valid_base64_unfold. unfold add_padding.
  pose proof (Nat.mod_upper_bound (String.length s) 4 ltac:(lia)) as Hlt.
  destruct (Nat.modulo (String.length s) 4) as [|[|[|[|r]]]] eqn:E; [| | | |lia];
    cbn [Nat.eqb negb Nat.sub].
  - assert (H0 : base64.b64decode s true
                 = base64.b64decode (s +:+ py.repeat_char "=" 0) true)
      by (cbn [py.repeat_char]; now rewrite append_nil_r).
    rewrite H0, (b64decode_digits s 0 Hs ltac:(lia) ltac:(reflexivity)), E.
    reflexivity.
  - rewrite (b64decode_digits s 3 Hs ltac:(lia)), E; [reflexivity|].
    intros ->. discriminate E.
  - rewrite (b64decode_digits s 2 Hs ltac:(lia)), E; [reflexivity|].
    intros ->. discriminate E.
  - rewrite (b64decode_digits s 1 Hs ltac:(lia)), E; [reflexivity|].
    intros ->. discriminate E.
Qed.

Lemma is_valid_base64_digits_witness :
  is_valid_base64 "QUJDR" = false /\ is_valid_base64 "QUJDRR" = true.
Proof.
  split.
  - apply (is_valid_base64_digits "QUJDR"). reflexivity.
  - apply (is_valid_base64_digits "QUJDRR"). reflexivity.
Defined.

(** ** The retry loop, whatever the service answers *)

Lemma handle_outcome_RuntimeError o e b :
  handle_outcome o = Captured e b -> is_RuntimeError e = true.
Proof.
  destruct o; cbn [handle_outcome]; intros H;
    try discriminate H; now injection H as <- _.
Qed.

Lemma attempts_from_S req retry_delay i0 k :
  attempts_from req retry_delay i0 (S (S k))
  = Post req :: Sleep (backoff_delay retry_delay (Z.of_nat i0))
      :: attempts_from req retry_delay (S i0) (S k).
Proof. reflexivity. Qed.

Section RetryLoopShape.

Variables (w : World) (req : request) (max_retries : Z) (retry_delay : Q).

(** The events of the loop are those of some number of attempts, at least
    one if the loop has an attempt to make. *)
Lemma retry_loop_shape :
  forall (n i0 : nat) (t : trace) (last_error : option exn) r t',
    ((1 <= n)%nat -> Z.of_nat (i0 + n) = max_retries) ->
    retry_loop w req max_retries retry_delay
      (List.map Z.of_nat (seq i0 n)) last_error t = (r, t') ->
    exists k,
      (k <= n)%nat /\ (1 <= n -> 1 <= k)%nat
      /\ t' = t ++ attempts_from req retry_delay i0 k.
Proof.
  induction n as [|n IH]; intros i0 t last_error r t' Hmax Hrun.
  - exists 0%nat. cbn in Hrun.
    assert (t' = t) as -> by (destruct last_error; now injection Hrun).
    split; [lia|]. split; [lia|]. now rewrite app_nil_r.
  - specialize (Hmax ltac:(lia)).
    change (seq i0 (S n)) with (i0 :: seq (S i0) n) in Hrun.
    cbn [List.map] in Hrun. rewrite retry_loop_cons in Hrun.
    destruct (handle_outcome _) as [content | e [|]].
    + injection Hrun as _ <-. exists 1%nat. repeat split; lia.
    + injection Hrun as _ <-. exists 1%nat. repeat split; lia.
    + destruct n as [|n].
      * replace (Z.of_nat i0 <? max_retries - 1) with false in Hrun
          by (symmetry; apply Z.ltb_ge; lia).
        cbn in Hrun. injection Hrun as _ <-. exists 1%nat. repeat split; lia.
      * replace (Z.of_nat i0 <? max_retries - 1) with true in Hrun
          by (symmetry; apply Z.ltb_lt; lia).
        cbn [andb] in Hrun.
        destruct (1024 <=? Z.of_nat i0).
        -- injection Hrun as _ <-. exists 1%nat. repeat split; lia.
        -- destruct (IH (S i0) _ _ _ _ ltac:(lia) Hrun) as (k & Hk & Hk1 & ->).
           destruct k as [|k]; [lia|].
           exists (S (S k)). split; [lia|]. split; [lia|].
           rewrite attempts_from_S, <- !app_assoc. reflexivity.
Qed.

(** The loop raises a [RuntimeError], or the [OverflowError] of the
    back-off, which needs an attempt 1024 that is not the last one. *)
Lemma retry_loop_raises :
  forall (attempts : list Z) (last_error : option exn) (t : trace) e t',
    (forall e0, last_error = Some e0 -> is_RuntimeError e0 = true) ->
    retry_loop w req max_retries retry_delay attempts last_error t
    = (Raise e, t') ->
    is_RuntimeError e = true
    \/ (is_OverflowError e = true /\ 1026 <= max_retries).
Proof.
  induction attempts as [|attempt rest IH]; intros last_error t e t' Hlast Hrun.
  - left. cbn in Hrun. destruct last_error as [e0|].
    + injection Hrun as <- _. now apply Hlast.
    + now injection Hrun as <- _.
  - rewrite retry_loop_cons in Hrun.
    destruct (handle_outcome _) as [content | e1 [|]] eqn:Ho.
    + discriminate Hrun.
    + left. injection Hrun as <- _. eapply handle_outcome_RuntimeError, Ho.
    + destruct ((attempt <? max_retries - 1) && (1024 <=? attempt)) eqn:Hover.
      * right. injection Hrun as <- _. split; [reflexivity|].
        apply andb_prop in Hover as [H1 H2].
        apply Z.ltb_lt in H1. apply Z.leb_le in H2. lia.
      * eapply IH; [|exact Hrun].
        intros e0 E. injection E as <-. eapply handle_outcome_RuntimeError, Ho.
Qed.

(** The first attempt that is not retried decides: after [k] retried
    failures, an answer is returned and a fatal status is raised, and the
    trace is that of [k + 1] attempts. The back-offs before attempt [k]
    must be computable: [k <= 1024]. *)
Lemma retry_loop_decided :
  forall (k n i0 : nat) (t : trace) (last_error : option exn),
    posts_made t = i0 ->
    Z.of_nat (i0 + n) = max_retries ->
    (k < n)%nat ->
    (i0 + k <= 1024)%nat ->
    (forall i, (i0 <= i < i0 + k)%nat ->
       exists e, handle_outcome (transport w i req) = Captured e false) ->
    retry_loop w req max_retries retry_delay
      (List.map Z.of_nat (seq i0 n)) last_error t
    = match handle_outcome (transport w (i0 + k) req) with
      | Return content =>
          (Ok content, t ++ attempts_from req retry_delay i0 (S k))
      | Captured e true =>
          (Raise e, t ++ attempts_from req retry_delay i0 (S k))
      | Captured e false =>
          retry_loop w req max_retries retry_delay
            (List.map Z.of_nat (seq i0 n)) last_error t
      end.
Proof.
  induction k as [|k IH]; intros n i0 t last_error Hposts Hmax Hk Hsmall Hfail.
  - destruct n as [|n]; [lia|].
    rewrite Nat.add_0_r.
    destruct (handle_outcome (transport w i0 req)) as [content | e [|]] eqn:Ho;
      [| |reflexivity];
      change (seq i0 (S n)) with (i0 :: seq (S i0) n); cbn [List.map];
      now rewrite retry_loop_cons, Hposts, Ho.
  - destruct n as [|n]; [lia|].
    destruct (Hfail i0 ltac:(lia)) as (e0 & He0).
    specialize (IH n (S i0)
                  ((t ++ [Post req])
                     ++ [Sleep (backoff_delay retry_delay (Z.of_nat i0))])
                  (Some e0)).
    replace (S i0 + k)%nat with (i0 + S k)%nat in IH by lia.
    destruct (handle_outcome (transport w (i0 + S k) req))
      as [content | e [|]] eqn:Ho; [| |reflexivity];
      change (seq i0 (S n)) with (i0 :: seq (S i0) n); cbn [List.map];
      rewrite retry_loop_cons, Hposts, He0;
      (replace (Z.of_nat i0 <? max_retries - 1) with true
         by (symmetry; apply Z.ltb_lt; lia));
      (replace (1024 <=? Z.of_nat i0) with false
         by (symmetry; apply Z.leb_gt; lia));
      cbn [andb];
      (rewrite IH;
       [rewrite attempts_from_S, <- !app_assoc; reflexivity
       | rewrite !posts_made_app, Hposts; cbn; lia
       | lia | lia | lia
       | intros i Hi; apply Hfail; lia]).
Qed.

End RetryLoopShape.

(** ** The client, whatever the service answers *)

Lemma call_glm_vision_api_not_ready w p image_base64 prompt mime_type max_tokens
  max_retries retry_delay t :
  configured p && is_valid_base64 image_base64 = false ->
  exists msg,
    call_glm_vision_api w p image_base64 prompt mime_type max_tokens
      max_retries retry_delay t
    = (Raise (ValueError msg), t).
Proof.
  unfold configured, call_glm_vision_api.
  destruct (py.truthy (GLM_API_KEY (server p))); [|eexists; reflexivity].
  destruct (py.truthy (Some (GLM_API_BASE (server p)))); [|eexists; reflexivity].
  destruct (is_valid_base64 image_base64); [discriminate|eexists; reflexivity].
Qed.

Lemma attempts_trace_exhausted req retry_delay max_retries :
  1 <= max_retries ->
  exhausted_trace req retry_delay max_retries
  = attempts_trace req retry_delay (Z.to_nat max_retries).
Proof.
  intros H. unfold exhausted_trace, attempts_trace, range.
  replace (Z.to_nat max_retries) with (S (Z.to_nat (max_retries - 1))) by lia.
  reflexivity.
Qed.

(** The events of a call are those of some attempts, none if the call is
    refused. *)
Lemma call_glm_vision_api_events w p image_base64 prompt mime_type max_tokens
  max_retries retry_delay t :
  let req := build_request (server p) image_base64 prompt
               (validate_image_format mime_type) max_tokens in
  exists k r,
    (k <= Z.to_nat max_retries)%nat
    /\ call_glm_vision_api w p image_base64 prompt mime_type max_tokens
         max_retries retry_delay t
       = (r, t ++ attempts_trace req retry_delay k)
    /\ (configured p = true -> is_valid_base64 image_base64 = true ->
        1 <= max_retries -> (1 <= k)%nat)
    /\ ((1 <= k)%nat ->
        configured p = true /\ is_valid_base64 image_base64 = true).
Proof.
  intros req.
  destruct (configured p && is_valid_base64 image_base64) eqn:Hready.
  - apply andb_prop in Hready as [Hc Hv].
    rewrite call_glm_vision_api_ready by assumption. fold req.
    destruct (retry_loop w req max_retries retry_delay (range max_retries) None t)
      as [r t'] eqn:Hrun.
    destruct (retry_loop_shape w req max_retries retry_delay
                (Z.to_nat max_retries) 0 t None r t') as (k & Hk & Hk1 & ->).
    + lia.
    + exact Hrun.
    + exists k, r. split; [exact Hk|]. split; [reflexivity|].
      split; [|now split]. intros _ _ Hn. apply Hk1. lia.
  - destruct (call_glm_vision_api_not_ready w p image_base64 prompt mime_type
                max_tokens max_retries retry_delay t Hready) as (msg & ->).
    exists 0%nat, (Raise (ValueError msg)).
    split; [lia|]. split; [cbn; now rewrite app_nil_r|].
    split; [|lia]. intros Hc Hv _. rewrite Hc, Hv in Hready. discriminate Hready.
Qed.



(** X10. The client raises only three kinds of error: a [ValueError]
    before any post (the trace is untouched); once the key, the base URL
    and the image are accepted, a [RuntimeError]; or, only when
    [max_retries >= 1026], the [OverflowError] of the back-off after
    attempt 1024. *)
Theorem call_glm_vision_api_raises (w : World) (p : Process)
  (image_base64 prompt mime_type : string) (max_tokens max_retries : Z)
  (retry_delay : Q) (t t' : trace) (e : exn) :
  call_glm_vision_api w p image_base64 prompt mime_type max_tokens
    max_retries retry_delay t = (Raise e, t') ->
  (is_ValueError e = true /\ t' = t
   /\ configured p && is_valid_base64 image_base64 = false)
  \/ (is_RuntimeError e = true
      /\ configured p = true /\ is_valid_base64 image_base64 = true)
  \/ (is_OverflowError e = true /\ 1026 <= max_retries
      /\ configured p = true /\ is_valid_base64 image_base64 = true).
Proof.
  intros Hrun.
  destruct (configured p && is_valid_base64 image_base64) eqn:Hready.
  - right. apply andb_prop in Hready as [Hc Hv].
    rewrite call_glm_vision_api_ready in Hrun by assumption.
    apply retry_loop_raises in Hrun; [|discriminate].
    destruct Hrun as [Hr | (Ho & Hmax)]; [left | right]; now repeat split.
  - left.
    destruct (call_glm_vision_api_not_ready w p image_base64 prompt mime_type
                max_tokens max_retries retry_delay t Hready) as (msg & Hmsg).
    rewrite Hmsg in Hrun. injection Hrun as <- <-. now repeat split.
Qed.

Lemma call_glm_vision_api_raises_witness :
  (is_ValueError (RuntimeError "GLM API timeout: read timed out") = true
   /\ attempts_trace
        (build_request (server sample_process) "QUJD" "prompt" "image/png" 100)
        (2 # 1) 2 = []
   /\ configured sample_process && is_valid_base64 "QUJD" = false)
  \/ (is_RuntimeError (RuntimeError "GLM API timeout: read timed out") = true
      /\ configured sample_process = true /\ is_valid_base64 "QUJD" = true)
  \/ (is_OverflowError (RuntimeError "GLM API timeout: read timed out") = true
      /\ 1026 <= 2
      /\ configured sample_process = true /\ is_valid_base64 "QUJD" = true).
Proof.
  apply (call_glm_vision_api_raises (scripted_world timeout_script)
           sample_process "QUJD" "prompt" "image/png" 100 2 (2 # 1)).
  reflexivity.
Defined.

(** X11. The client recovers: when the first [k <= 1024] attempts fail
    with retried errors, the [k] back-off delays are finite floats, and
    attempt [k] (still below [max_retries]) is answered, the call returns
    that answer after [k + 1] posts and [k] sleeps. *)
Theorem call_glm_vision_api_recovers (w : World) (p : Process)
  (image_base64 prompt mime_type : string) (max_tokens max_retries : Z)
  (retry_delay : Q) (k : nat) (content : string) :
  let req := build_request (server p) image_base64 prompt
               (validate_image_format mime_type) max_tokens in
  configured p = true ->
  is_valid_base64 image_base64 = true ->
  Z.of_nat k < max_retries ->
  (k <= 1024)%nat ->
  finite_delays retry_delay (Z.of_nat k) ->
  (forall i, (i < k)%nat ->
     exists e, handle_outcome (transport w i req) = Captured e false) ->
  transport w k req = Answer content ->
  call_glm_vision_api w p image_base64 prompt mime_type max_tokens
    max_retries retry_delay []
  = (Ok content, attempts_trace req retry_delay (S k)).
Proof.
  intros req Hc Hv Hk Hsmall _ Hfail Hans.
  rewrite call_glm_vision_api_ready by assumption. fold req.
  unfold range.
  rewrite (retry_loop_decided w req max_retries retry_delay k
             (Z.to_nat max_retries) 0 [] None);
    [|reflexivity | lia | lia | lia | intros i Hi; apply Hfail; lia].
  cbn [Nat.add]. rewrite Hans. reflexivity.
Qed.

Lemma call_glm_vision_api_recovers_witness :
  call_glm_vision_api (scripted_world flaky_script) sample_process "QUJD"
    "prompt" "image/png" 100 5 (2 # 1) []
  = (Ok "a cat on a mat"%string,
     attempts_trace
       (build_request (server sample_process) "QUJD" "prompt" "image/png" 100)
       (2 # 1) 3).
Proof.
  apply (call_glm_vision_api_recovers (scripted_world flaky_script)
           sample_process "QUJD" "prompt" "image/png" 100 5 (2 # 1) 2
           "a cat on a mat");
    [reflexivity | reflexivity | lia | lia | | | reflexivity].
  - intros i Hi. assert (i = 0 \/ i = 1) as [-> | ->] by lia;
      vm_compute; discriminate.
  - intros i Hi. exists (RuntimeError (http_error_msg (sample_response 503))).
    destruct i as [|[|i]]; [reflexivity | reflexivity | lia].
Defined.

(** X12. A status 401, 403 or 429 ends the call at whatever attempt
    [k <= 1024] it arrives: after [k] retried failures, whose back-off
    delays are finite floats, the error of that response is raised at once,
    with no further sleep or post. *)
Theorem call_glm_vision_api_stops_at_status (w : World) (p : Process)
  (image_base64 prompt mime_type : string) (max_tokens max_retries : Z)
  (retry_delay : Q) (k : nat) (resp : response) :
  let req := build_request (server p) image_base64 prompt
               (validate_image_format mime_type) max_tokens in
  configured p = true ->
  is_valid_base64 image_base64 = true ->
  Z.of_nat k < max_retries ->
  (k <= 1024)%nat ->
  finite_delays retry_delay (Z.of_nat k) ->
  (forall i, (i < k)%nat ->
     exists e, handle_outcome (transport w i req) = Captured e false) ->
  transport w k req = HTTPStatusError resp ->
  no_retry_status (status_code resp) = true ->
  call_glm_vision_api w p image_base64 prompt mime_type max_tokens
    max_retries retry_delay []
  = (Raise (RuntimeError (http_error_msg resp)),
     attempts_trace req retry_delay (S k)).
Proof.
  intros req Hc Hv Hk Hsmall _ Hfail Hresp Hstatus.
  rewrite call_glm_vision_api_ready by assumption. fold req.
  unfold range.
  rewrite (retry_loop_decided w req max_retries retry_delay k
             (Z.to_nat max_retries) 0 [] None);
    [|reflexivity | lia | lia | lia | intros i Hi; apply Hfail; lia].
  cbn [Nat.add]. rewrite Hresp. cbn [handle_outcome]. rewrite Hstatus.
  reflexivity.
Qed.

Lemma call_glm_vision_api_stops_at_status_witness :
  call_glm_vision_api (scripted_world throttled_script) sample_process "QUJD"
    "prompt" "image/png" 100 5 (2 # 1) []
  = (Raise (RuntimeError (http_error_msg (sample_response 429))),
     attempts_trace
       (build_request (server sample_process) "QUJD" "prompt" "image/png" 100)
       (2 # 1) 2).
Proof.
  apply (call_glm_vision_api_stops_at_status (scripted_world throttled_script)
           sample_process "QUJD" "prompt" "image/png" 100 5 (2 # 1) 1
           (sample_response 429));
    [reflexivity | reflexivity | lia | lia | | | reflexivity | reflexivity].
  - intros i Hi. assert (i = 0) as -> by lia. vm_compute. discriminate.
  - intros i Hi. exists (RuntimeError "GLM API timeout: read timed out").
    destruct i as [|i]; [reflexivity | lia].
Defined.

(** X13. Time-outs, network errors and unexpected exceptions are retried
    like error statuses: for [1 <= max_retries <= 1025] and back-off delays
    that are finite floats, when every attempt ends in a retried failure of
    any kind, the call raises the [RuntimeError] captured at the last
    attempt (not the first) after [max_retries] posts. *)
Theorem call_glm_vision_api_last_error_wins (w : World) (p : Process)
  (image_base64 prompt mime_type : string) (max_tokens max_retries : Z)
  (retry_delay : Q) :
  let req := build_request (server p) image_base64 prompt
               (validate_image_format mime_type) max_tokens in
  1 <= max_retries <= 1025 ->
  finite_delays retry_delay (max_retries - 1) ->
  configured p = true ->
  is_valid_base64 image_base64 = true ->
  (forall i, (i < Z.to_nat max_retries)%nat ->
     exists e, handle_outcome (transport w i req) = Captured e false) ->
  exists e,
    handle_outcome (transport w (Z.to_nat max_retries - 1) req) = Captured e false
    /\ is_RuntimeError e = true
    /\ call_glm_vision_api w p image_base64 prompt mime_type max_tokens
         max_retries retry_delay []
       = (Raise e, attempts_trace req retry_delay (Z.to_nat max_retries)).
Proof.
  intros req Hn _ Hc Hv Hfail.
  destruct (retry_loop_all_captured w req max_retries retry_delay Hn Hfail)
    as (e & He & Hloop).
  exists e. split; [exact He|].
  split; [eapply handle_outcome_RuntimeError, He|].
  rewrite call_glm_vision_api_ready by assumption. fold req.
  rewrite Hloop, attempts_trace_exhausted; [reflexivity | lia].
Qed.

Lemma call_glm_vision_api_last_error_wins_witness :
  exists e,
    handle_outcome (timeout_script 2) = Captured e false
    /\ is_RuntimeError e = true
    /\ call_glm_vision_api (scripted_world timeout_script) sample_process
         "QUJD" "prompt" "image/png" 100 3 (2 # 1) []
       = (Raise e,
          attempts_trace
            (build_request (server sample_process) "QUJD" "prompt" "image/png" 100)
            (2 # 1) 3).
Proof.
  apply (call_glm_vision_api_last_error_wins (scripted_world timeout_script)
           sample_process "QUJD" "prompt" "image/png" 100 3 (2 # 1));
    [lia | | reflexivity | reflexivity |].
  - intros i Hi. assert (i = 0 \/ i = 1) as [-> | ->] by lia;
      vm_compute; discriminate.
  - intros i _. eexists. reflexivity.
Defined.

(** ** The orchestrator, whatever its components do *)

Lemma notify_app ctx e t : notify ctx e t = t ++ (if ctx then [e] else []).
Proof. destruct ctx; cbn [notify]; [reflexivity | now rewrite app_nil_r]. Qed.

Lemma posts_made_attempts_from req retry_delay i0 k :
  posts_made (attempts_from req retry_delay i0 k) = k.
Proof.
  destruct k as [|k]; [reflexivity|].
  unfold attempts_from, posts_made. cbn [List.filter is_post length]. f_equal.
  revert i0. induction k as [|k IH]; intros i0; [reflexivity|].
  cbn [seq List.map flat_map app List.filter is_post length]. now rewrite IH.
Qed.

Lemma sleeps_of_app t1 t2 : sleeps_of (t1 ++ t2) = sleeps_of t1 ++ sleeps_of t2.
Proof.
  induction t1 as [|[r|d|m|m] t1 IH]; cbn [app sleeps_of]; now rewrite ?IH.
Qed.

Lemma sleeps_of_attempts_from req retry_delay i0 k :
  sleeps_of (attempts_from req retry_delay i0 (S k))
  = List.map (backoff_delay retry_delay) (List.map Z.of_nat (seq i0 k)).
Proof.
  unfold attempts_from. cbn [sleeps_of].
  revert i0. induction k as [|k IH]; intros i0; [reflexivity|].
  cbn [seq List.map flat_map app sleeps_of]. now rewrite IH.
Qed.

Lemma notifications_of_app t1 t2 :
  notifications_of (t1 ++ t2) = notifications_of t1 ++ notifications_of t2.
Proof. apply List.filter_app. Qed.

Lemma notifications_of_attempts_from req retry_delay i0 k :
  notifications_of (attempts_from req retry_delay i0 k) = [].
Proof.
  destruct k as [|k]; [reflexivity|].
  unfold attempts_from, notifications_of. cbn [List.filter is_notification].
  revert i0. induction k as [|k IH]; intros i0; [reflexivity|].
  cbn [seq List.map flat_map app List.filter is_notification]. apply IH.
Qed.

Lemma In_Post_attempts_from req retry_delay i0 k r :
  In (Post r) (attempts_from req retry_delay i0 k) -> r = req.
Proof.
  destruct k as [|k]; [intros []|].
  unfold attempts_from. intros [H | H]; [now injection H|].
  apply in_flat_map in H as (attempt & _ & H).
  destruct H as [H | [H | []]]; [discriminate H | now injection H].
Qed.

(** What a run of the orchestrator consists of. *)
Lemma analyze_image_with_context_events w p image_data user_context max_tokens
  ctx t :
  let run := analyze_image_with_context w p image_data user_context max_tokens
               ctx t in
  let started := notify ctx (Info "Starting image analysis with context...") t in
  (exists e,
      prepare_image_for_api w image_data = Raise e
      /\ run = (Ok (analysis_failed e),
                notify ctx (Error (analysis_failed e)) started))
  \/ (exists image_base64 mime_type k,
         prepare_image_for_api w image_data = Ok (image_base64, mime_type)
         /\ (k <= 5)%nat
         /\ ((1 <= k)%nat ->
             configured p = true /\ is_valid_base64 image_base64 = true)
         /\ let body :=
              started
              ++ attempts_trace
                   (build_request (server p) image_base64
                      (enhanced_prompt user_context)
                      (validate_image_format mime_type) max_tokens)
                   (2 # 1) k in
            (exists answer,
                run = (Ok answer,
                       notify ctx (Info "Image analysis completed successfully")
                         body))
            \/ (exists e,
                   run = (Ok (analysis_failed e),
                          notify ctx (Error (analysis_failed e)) body))).
Proof.
  intros run started. unfold run.
  rewrite analyze_image_with_context_run. cbv zeta. fold started.
  destruct (prepare_image_for_api w image_data) as [[b64 mime]|e].
  - right.
    destruct (call_glm_vision_api_events w p b64 (enhanced_prompt user_context)
                mime max_tokens 5 (2 # 1) started)
      as (k & r & Hk & -> & _ & Hready).
    exists b64, mime, k. split; [reflexivity|]. split; [exact Hk|].
    split; [exact Hready|].
    destruct r as [answer|e]; [left | right]; eexists; reflexivity.
  - left. exists e. now split.
Qed.

Lemma sleeps_of_attempts_trace_bounded req k :
  (k <= 5)%nat ->
  exists rest,
    sleeps_of (attempts_trace req (2 # 1) k) ++ rest
    = [2 # 1; 4 # 1; 8 # 1; 16 # 1]%Q.
Proof.
  intros Hk.
  destruct k as [|[|[|[|[|[|k]]]]]]; [| | | | | |lia]; eexists; reflexivity.
Qed.

(** X14. One analysis makes at most five posts, and the delays it sleeps
    are the first ones of 2, 4, 8, 16 seconds: it never sleeps more than
    30 seconds in all. *)
Theorem analyze_image_with_context_bounded (w : World) (p : Process)
  (image_data user_context : string) (max_tokens : Z) (ctx : bool) (t : trace) :
  exists new rest,
    snd (analyze_image_with_context w p image_data user_context max_tokens ctx t)
    = t ++ new
    /\ (posts_made new <= 5)%nat
    /\ sleeps_of new ++ rest = [2 # 1; 4 # 1; 8 # 1; 16 # 1]%Q.
Proof.
  destruct (analyze_image_with_context_events w p image_data user_context
              max_tokens ctx t)
    as [(e & _ & ->) | (b64 & mime & k & _ & Hk & _ & [(answer & ->) | (e & ->)])];
    cbn [snd]; rewrite !notify_app, <- ?app_assoc.
  - destruct ctx; eexists _, _; (split; [reflexivity|]);
      (split; [cbn; lia | reflexivity]).
  - destruct (sleeps_of_attempts_trace_bounded
                (build_request (server p) b64 (enhanced_prompt user_context)
                   (validate_image_format mime) max_tokens) k Hk) as (rest & Hrest).
    destruct ctx; eexists _, rest; (split; [reflexivity|]);
      rewrite !posts_made_app, !sleeps_of_app;
      unfold attempts_trace at 1; rewrite posts_made_attempts_from;
      cbn [posts_made List.filter is_post length sleeps_of app];
      rewrite app_nil_r; (split; [lia | exact Hrest]).
  - destruct (sleeps_of_attempts_trace_bounded
                (build_request (server p) b64 (enhanced_prompt user_context)
                   (validate_image_format mime) max_tokens) k Hk) as (rest & Hrest).
    destruct ctx; eexists _, rest; (split; [reflexivity|]);
      rewrite !posts_made_app, !sleeps_of_app;
      unfold attempts_trace at 1; rewrite posts_made_attempts_from;
      cbn [posts_made List.filter is_post length sleeps_of app];
      rewrite app_nil_r; (split; [lia | exact Hrest]).
Qed.

Lemma not_In_Post_notification (ctx : bool) (e : event) (r : request) :
  is_notification e = true -> ~ In (Post r) (if ctx then [e] else []).
Proof.
  intros He. destruct ctx; [|intros []].
  intros [H | []]. subst e. discriminate He.
Qed.

Lemma contains_user_context user_context :
  contains user_context (enhanced_prompt user_context) = true.
Proof. unfold enhanced_prompt. apply contains_append. Qed.

(** X15. Every request the orchestrator posts carries the caller's context
    verbatim inside the prompt, the caller's [max_tokens], the configured
    endpoint, and a data URL made of an allow-listed type and of the
    prepared payload, which has passed [is_valid_base64]. *)
Theorem analyze_image_with_context_requests (w : World) (p : Process)
  (image_data user_context : string) (max_tokens : Z) (ctx : bool) (t : trace) :
  exists new,
    snd (analyze_image_with_context w p image_data user_context max_tokens ctx t)
    = t ++ new
    /\ forall r, In (Post r) new ->
         prompt_text r = enhanced_prompt user_context
         /\ contains user_context (prompt_text r) = true
         /\ max_tokens_field r = max_tokens
         /\ url r = GLM_API_BASE (server p) +:+ "/chat/completions"
         /\ exists payload mime,
              prepare_image_for_api w image_data = Ok (payload, mime)
              /\ is_valid_base64 payload = true
              /\ In (validate_image_format mime) supported_formats
              /\ image_url r
                 = "data:" +:+ validate_image_format mime +:+ ";base64,"
                   +:+ payload.
Proof.
  destruct (analyze_image_with_context_events w p image_data user_context
              max_tokens ctx t)
    as [(e & _ & ->)
       | (b64 & mime & k & Hprep & _ & Hready & [(answer & ->) | (e & ->)])];
    cbn [snd]; rewrite !notify_app, <- ?app_assoc;
    (eexists; split; [reflexivity|]); intros r Hr.
  - apply in_app_or in Hr as [Hr | Hr];
      now apply not_In_Post_notification in Hr.
  - apply in_app_or in Hr as [Hr | Hr];
      [now apply not_In_Post_notification in Hr|].
    apply in_app_or in Hr as [Hr | Hr];
      [|now apply not_In_Post_notification in Hr].
    assert (Hk : (1 <= k)%nat) by (destruct k; [destruct Hr | lia]).
    apply In_Post_attempts_from in Hr. subst r. cbn [prompt_text max_tokens_field url image_url build_request].
    destruct (Hready Hk) as (_ & Hv).
    repeat split; auto using contains_user_context.
    exists b64, mime. repeat split; auto using validate_image_format_supported.
  - apply in_app_or in Hr as [Hr | Hr];
      [now apply not_In_Post_notification in Hr|].
    apply in_app_or in Hr as [Hr | Hr];
      [|now apply not_In_Post_notification in Hr].
    assert (Hk : (1 <= k)%nat) by (destruct k; [destruct Hr | lia]).
    apply In_Post_attempts_from in Hr. subst r. cbn [prompt_text max_tokens_field url image_url build_request].
    destruct (Hready Hk) as (_ & Hv).
    repeat split; auto using contains_user_context.
    exists b64, mime. repeat split; auto using validate_image_format_supported.
Qed.

Lemma startswith_analysis_failed e :
  py.startswith (analysis_failed e) "Image analysis failed: " = true.
Proof. apply prefix_append. Qed.

(** The notifications of a run in which every notification is accepted. *)
Lemma analyze_image_with_context_notified (w : World) (p : Process)
  (image_data user_context : string) (max_tokens : Z) (ctx : bool) (t : trace) :
  exists new s closing,
    analyze_image_with_context w p image_data user_context max_tokens ctx t
    = (Ok s, t ++ new)
    /\ notifications_of new
       = (if ctx
          then [Info "Starting image analysis with context..."; closing]
          else [])
    /\ (closing = Info "Image analysis completed successfully"
        \/ (closing = Error s
            /\ py.startswith s "Image analysis failed: " = true)).
Proof.
  destruct (analyze_image_with_context_events w p image_data user_context
              max_tokens ctx t)
    as [(e & _ & ->)
       | (b64 & mime & k & _ & _ & _ & [(answer & ->) | (e & ->)])];
    rewrite !notify_app, <- ?app_assoc.
  - exists ((if ctx then [Info "Starting image analysis with context..."] else [])
            ++ (if ctx then [Error (analysis_failed e)] else [])),
      (analysis_failed e), (Error (analysis_failed e)).
    split; [reflexivity|]. split; [now destruct ctx|].
    right. split; [reflexivity | apply startswith_analysis_failed].
  - eexists _, answer, (Info "Image analysis completed successfully").
    split; [reflexivity|]. split; [|now left].
    rewrite !notifications_of_app. unfold attempts_trace.
    rewrite notifications_of_attempts_from. now destruct ctx.
  - eexists _, (analysis_failed e), (Error (analysis_failed e)).
    split; [reflexivity|]. split.
    + rewrite !notifications_of_app. unfold attempts_trace.
      rewrite notifications_of_attempts_from. now destruct ctx.
    + right. split; [reflexivity | apply startswith_analysis_failed].
Qed.

(** X16. Without a sink nothing is notified. With a sink that accepts
    every notification, a run returns a string and sends exactly two
    notifications: the start, then either the completion or an error whose
    text is the failure string that is returned. *)
Theorem analyze_image_with_context_sink_notifications (w : World) (p : Process)
  (image_data user_context : string) (max_tokens : Z) (ctx : option Sink)
  (t : trace) :
  (forall sink, ctx = Some sink -> accepts_all sink) ->
  exists new s closing,
    analyze_image_with_context_sink w p image_data user_context max_tokens ctx t
    = (Ok s, t ++ new)
    /\ notifications_of new
       = (if has_sink ctx
          then [Info "Starting image analysis with context..."; closing]
          else [])
    /\ (closing = Info "Image analysis completed successfully"
        \/ (closing = Error s
            /\ py.startswith s "Image analysis failed: " = true)).
Proof.
  intros H. rewrite analyze_image_with_context_sink_accepting by exact H.
  apply analyze_image_with_context_notified.
Qed.

Lemma analyze_image_with_context_sink_notifications_witness :
  exists new s closing,
    analyze_image_with_context_sink (sample_world 401) sample_process
      "data:image/png;base64,QUJD" "Extract text" 3000 (Some accepting_sink) []
    = (Ok s, [] ++ new)
    /\ notifications_of new
       = (if has_sink (Some accepting_sink)
          then [Info "Starting image analysis with context..."; closing]
          else [])
    /\ (closing = Info "Image analysis completed successfully"
        \/ (closing = Error s
            /\ py.startswith s "Image analysis failed: " = true)).
Proof.
  apply (analyze_image_with_context_sink_notifications (sample_world 401)
           sample_process "data:image/png;base64,QUJD" "Extract text" 3000
           (Some accepting_sink) []).
  intros sink [= <-] msg t. split; reflexivity.
Defined.

(** X17. Without an API key in the module the orchestrator makes no post,
    whatever the image: it returns a failure string. *)
Theorem analyze_image_with_context_without_key (w : World) (p : Process)
  (image_data user_context : string) (max_tokens : Z) (ctx : bool) (t : trace) :
  py.truthy (GLM_API_KEY (server p)) = false ->
  exists msg new,
    analyze_image_with_context w p image_data user_context max_tokens ctx t
    = (Ok ("Image analysis failed: " +:+ msg), t ++ new)
    /\ posts_made new = 0%nat.
Proof.
  intros Hkey. rewrite analyze_image_with_context_run. cbv zeta.
  destruct (prepare_image_for_api w image_data) as [[b64 mime]|e].
  - destruct (call_glm_vision_api_not_ready w p b64 (enhanced_prompt user_context)
                mime max_tokens 5 (2 # 1)
                (notify ctx (Info "Starting image analysis with context...") t))
      as (msg & ->).
    { unfold configured. now rewrite Hkey. }
    rewrite !notify_app, <- app_assoc.
    eexists msg, _. split; [reflexivity|]. now destruct ctx.
  - rewrite !notify_app, <- app_assoc.
    eexists (str_exn e), _. split; [reflexivity|]. now destruct ctx.
Qed.

Lemma analyze_image_with_context_without_key_witness :
  exists msg new,
    analyze_image_with_context (sample_world 500) (import_server ∅) "QUJD"
      "Extract text" 3000 true []
    = (Ok ("Image analysis failed: " +:+ msg), [] ++ new)
    /\ posts_made new = 0%nat.
Proof.
  apply (analyze_image_with_context_without_key (sample_world 500)
           (import_server ∅) "QUJD" "Extract text" 3000 true []).
  reflexivity.
Defined.

Lemma posts_made_started ctx e t :
  is_notification e = true -> posts_made (notify ctx e t) = posts_made t.
Proof.
  intros He. rewrite notify_app, posts_made_app.
  destruct ctx, e; try discriminate He; cbn; lia.
Qed.

(** X18. End to end: for a well-formed data URL with a valid payload, in a
    configured process, when the service answers the first post, the
    orchestrator returns that answer; it has made the one post, between the
    two notifications of the sink. *)
Theorem analyze_image_with_context_data_url_answer (w : World) (p : Process)
  (fmt payload user_context : string) (max_tokens : Z) (ctx : bool)
  (content : string) :
  let image_data := "data:image/" +:+ fmt +:+ ";base64," +:+ payload in
  let req := build_request (server p) payload (enhanced_prompt user_context)
               (validate_image_format ("image/" +:+ fmt)) max_tokens in
  os_path_exists (fs w) image_data = false ->
  has_char "," fmt = false ->
  has_char ";" fmt = false ->
  configured p = true ->
  is_valid_base64 payload = true ->
  transport w 0 req = Answer content ->
  analyze_image_with_context w p image_data user_context max_tokens ctx []
  = (Ok content,
     notify ctx (Info "Image analysis completed successfully")
       (notify ctx (Info "Starting image analysis with context...") []
        ++ [Post req])).
Proof.
  intros image_data req Hex Hcomma Hsemi Hc Hv Hans.
  rewrite analyze_image_with_context_run. cbv zeta.
  unfold image_data.
  rewrite (prepare_image_for_api_data_url w fmt payload Hex Hcomma Hsemi).
  rewrite call_glm_vision_api_ready by assumption. fold req.
  change (range 5) with (List.map Z.of_nat (seq 0 5)).
  rewrite (retry_loop_decided w req 5 (2 # 1) 0 5 0
             (notify ctx (Info "Starting image analysis with context...") [])
             None);
    [|now rewrite posts_made_started | reflexivity | lia | lia
     | intros i Hi; lia].
  cbn [Nat.add]. rewrite Hans. reflexivity.
Qed.

Lemma analyze_image_with_context_data_url_answer_witness :
  analyze_image_with_context (scripted_world (fun _ => Answer "ok"))
    sample_process "data:image/png;base64,ZmFrZV9pbWFnZV9kYXRh" "Extract text"
    3000 true []
  = (Ok "ok"%string,
     [Info "Starting image analysis with context...";
      Post (build_request (server sample_process) "ZmFrZV9pbWFnZV9kYXRh"
              (enhanced_prompt "Extract text") "image/png" 3000);
      Info "Image analysis completed successfully"]).
Proof.
  apply (analyze_image_with_context_data_url_answer
           (scripted_world (fun _ => Answer "ok")) sample_process "png"
           "ZmFrZV9pbWFnZV9kYXRh" "Extract text" 3000 true "ok");
    reflexivity.
Defined.

(** X19. An input that is neither an existing path nor a data URL is sent
    as it is, and always declared image/jpeg; when it is not valid base64
    (in a configured process) nothing is posted and the failure string says
    so. *)
Theorem analyze_image_with_context_raw_base64 (w : World) (p : Process)
  (image_data user_context : string) (max_tokens : Z) (ctx : bool) (t : trace) :
  os_path_exists (fs w) image_data = false ->
  py.startswith image_data "data:image" = false ->
  exists new,
    snd (analyze_image_with_context w p image_data user_context max_tokens ctx t)
    = t ++ new
    /\ (forall r, In (Post r) new ->
          image_url r = "data:image/jpeg;base64," +:+ image_data)
    /\ (configured p = true -> is_valid_base64 image_data = false ->
        posts_made new = 0%nat
        /\ fst (analyze_image_with_context w p image_data user_context
                  max_tokens ctx t)
           = Ok "Image analysis failed: Invalid base64 image data"%string).
Proof.
  intros Hex Hst.
  assert (Hprep : prepare_image_for_api w image_data
                  = Ok (image_data, "image/jpeg"%string))
    by (unfold prepare_image_for_api; now rewrite Hex, Hst).
  destruct (analyze_image_with_context_events w p image_data user_context
              max_tokens ctx t)
    as [(e & He & _)
       | (b64 & mime & k & Hprep' & _ & Hready & Hrun)];
    [rewrite Hprep in He; discriminate He|].
  rewrite Hprep in Hprep'. injection Hprep' as <- <-.
  assert (Hnew : exists r closing,
             analyze_image_with_context w p image_data user_context max_tokens
               ctx t
             = (r, t ++ (if ctx
                         then [Info "Starting image analysis with context..."]
                         else [])
                     ++ attempts_trace
                          (build_request (server p) image_data
                             (enhanced_prompt user_context)
                             (validate_image_format "image/jpeg") max_tokens)
                          (2 # 1) k
                     ++ (if ctx then [closing] else []))
             /\ is_notification closing = true).
  { destruct Hrun as [(answer & ->) | (e & ->)];
      rewrite !notify_app, <- ?app_assoc; eexists _, _; split; reflexivity. }
  destruct Hnew as (r & closing & Hrun' & Hclosing).
  eexists. split; [now rewrite Hrun'|]. split.
  - intros r0 Hr.
    apply in_app_or in Hr as [Hr | Hr];
      [now apply not_In_Post_notification in Hr|].
    apply in_app_or in Hr as [Hr | Hr];
      [|now apply not_In_Post_notification in Hr].
    apply In_Post_attempts_from in Hr. now subst r0.
  - intros Hc Hv.
    assert (k = 0%nat) as ->.
    { destruct k as [|k]; [reflexivity|].
      destruct (Hready ltac:(lia)) as (_ & Hv'). congruence. }
    split; [now destruct ctx, closing|].
    rewrite analyze_image_with_context_run. cbv zeta. rewrite Hprep.
    unfold call_glm_vision_api. unfold configured in Hc.
    apply andb_prop in Hc as [-> ->]. rewrite Hv. reflexivity.
Qed.

Lemma analyze_image_with_context_raw_base64_witness :
  exists new,
    snd (analyze_image_with_context (sample_world 500) sample_process
           "not base64!" "Extract text" 3000 true [])
    = [] ++ new
    /\ (forall r, In (Post r) new ->
          image_url r = "data:image/jpeg;base64," +:+ "not base64!")
    /\ (configured sample_process = true -> is_valid_base64 "not base64!" = false ->
        posts_made new = 0%nat
        /\ fst (analyze_image_with_context (sample_world 500) sample_process
                  "not base64!" "Extract text" 3000 true [])
           = Ok "Image analysis failed: Invalid base64 image data"%string).
Proof.
  apply (analyze_image_with_context_raw_base64 (sample_world 500) sample_process
           "not base64!" "Extract text" 3000 true []); reflexivity.
Defined.

(** ** Configuration at import *)

(** X20. An empty GLM_API_BASE in the environment at import is not
    replaced by the default URL: with a key present, every call is refused
    with a [ValueError] before any post. *)
Theorem call_glm_vision_api_empty_base (w : World) (env : gmap string string)
  (image_base64 prompt mime_type : string) (max_tokens max_retries : Z)
  (retry_delay : Q) (t : trace) :
  env !! "GLM_API_BASE"%string = Some EmptyString ->
  py.truthy (env !! "GLM_API_KEY"%string) = true ->
  call_glm_vision_api w (import_server env) image_base64 prompt mime_type
    max_tokens max_retries retry_delay t
  = (Raise (ValueError "GLM_API_BASE environment variable not set"), t).
Proof.
  intros Hbase Hkey. unfold call_glm_vision_api.
  cbn [server import_server load_config GLM_API_KEY GLM_API_BASE].
  unfold getenv, getenv_default. rewrite Hkey, Hbase. reflexivity.
Qed.

Lemma call_glm_vision_api_empty_base_witness :
  call_glm_vision_api (sample_world 500)
    (import_server {[ "GLM_API_BASE"%string := EmptyString;
                      "GLM_API_KEY"%string := "secret"%string ]})
    "QUJD" "prompt" "image/png" 100 5 (2 # 1) []
  = (Raise (ValueError "GLM_API_BASE environment variable not set"), []).
Proof.
  apply (call_glm_vision_api_empty_base (sample_world 500)
           {[ "GLM_API_BASE"%string := EmptyString;
              "GLM_API_KEY"%string := "secret"%string ]}
           "QUJD" "prompt" "image/png" 100 5 (2 # 1) []); reflexivity.
Defined.
